(** * terraform-provider-sanity: the provider, its resources and their
      backend calls, embedded as Rocq functions.

    The Go sources live in [internal/provider]: the provider core
    ([SanityProvider]), [ProjectResource], [CORSOriginResource] and
    [DatasetResource].  Every operation of a resource is one synchronous
    sequence of calls on the Sanity client, so an operation is a function
    in a small monad that threads the log of the calls issued so far; the
    client itself is a parameter (an oracle that answers a call from the
    history before it). *)

From Stdlib Require Import ZArith Lia Ascii String List Bool.
From stdpp Require Import base strings gmap.

Local Open Scope string_scope.
Local Open Scope Z_scope.

(* ===================================================================== *)
(** ** Go's [fmt] and [strconv], as far as the provider uses them *)
(* ===================================================================== *)

(** [fmt.Sprintf("%d", n)] on an [int64] and [fmt.Sscanf(s, "%d", &n)] into
    an [int64].  A Go string is a sequence of bytes; [string] of [ascii]
    is the same thing. *)
Module fmt.

Definition code (c : ascii) : Z := Z.of_N (N_of_ascii c).

Definition byte (n : Z) : ascii := ascii_of_N (Z.to_N n).

Definition int64_min : Z := - 2 ^ 63.
Definition int64_max : Z := 2 ^ 63 - 1.
Definition uint64_max : Z := 2 ^ 64 - 1.

Definition is_int64 (n : Z) : Prop := int64_min <= n <= int64_max.

(** *** Printing: [strconv.formatBits] in base 10 *)

(** [for u >= 10 { q := u / 10; a[i] = '0' + u - q*10; u = q }] then the
    last digit.  [fuel] bounds the loop; twenty digits hold any 64-bit
    value. *)
Fixpoint formatBits (fuel : nat) (u : Z) (acc : string) : string :=
  match fuel with
  | O => acc
  | S fuel' =>
      if u <? 10 then String (byte (48 + u)) acc
      else formatBits fuel' (u / 10) (String (byte (48 + u mod 10)) acc)
  end.

(** [%d] of a signed value: the magnitude in decimal, [-] in front of a
    negative one. *)
Definition Sprintf_d (v : Z) : string :=
  if v <? 0 then String "-"%char (formatBits 20 (- v) EmptyString)
  else formatBits 20 v EmptyString.

(** *** Scanning *)

Inductive ScanError : Type :=
| ErrEOF                      (* the input ends before the operand *)
| ErrUnexpectedNewline
| ErrExpectedInteger
| ErrSyntax (tok : string)    (* strconv.ParseInt: invalid syntax *)
| ErrRange (tok : string).    (* strconv.ParseInt: value out of range *)

Definition isDigit (c : ascii) : bool := (48 <=? code c) && (code c <=? 57).

(** The one-byte members of fmt's [space] table but the newline:
    U+0009, U+000B..U+000D and U+0020. *)
Definition isSpaceByte (c : ascii) : bool :=
  (code c =? 9) || ((11 <=? code c) && (code c <=? 13)) || (code c =? 32).

(** U+0085 and U+00A0 in UTF-8. *)
Definition isSpace2 (c1 c2 : ascii) : bool :=
  (code c1 =? 194) && ((code c2 =? 133) || (code c2 =? 160)).

(** U+1680, U+2000..U+200A, U+2028, U+2029, U+202F, U+205F and U+3000
    in UTF-8. *)
Definition isSpace3 (c1 c2 c3 : ascii) : bool :=
  ((code c1 =? 225) && (code c2 =? 154) && (code c3 =? 128))
  || ((code c1 =? 226) && (code c2 =? 128)
      && (((128 <=? code c3) && (code c3 <=? 138))
          || (code c3 =? 168) || (code c3 =? 169) || (code c3 =? 175)))
  || ((code c1 =? 226) && (code c2 =? 129) && (code c3 =? 159))
  || ((code c1 =? 227) && (code c2 =? 128) && (code c3 =? 128)).

(** [ss.SkipSpace] of a scan started by [Sscanf] ([nlIsSpace] is false):
    spaces are dropped, a newline is an error. *)
Fixpoint SkipSpace (s : string) : ScanError + string :=
  match s with
  | EmptyString => inr s
  | String c1 r1 =>
      if code c1 =? 10 then inl ErrUnexpectedNewline
      else if isSpaceByte c1 then SkipSpace r1
      else
        match r1 with
        | EmptyString => inr s
        | String c2 r2 =>
            if isSpace2 c1 c2 then SkipSpace r2
            else
              match r2 with
              | EmptyString => inr s
              | String c3 r3 =>
                  if isSpace3 c1 c2 c3 then SkipSpace r3 else inr s
              end
        end
  end.

(** [s.accept("+-")]: the sign consumed into the token buffer, and the rest. *)
Definition acceptSign (s : string) : string * string :=
  match s with
  | String c r =>
      if (code c =? 43) || (code c =? 45) then (String c EmptyString, r)
      else (EmptyString, s)
  | EmptyString => (EmptyString, s)
  end.

(** The digit set of [%d] is ["0123456789_"]. *)
Definition isDigitOrUnderscore (c : ascii) : bool :=
  isDigit c || (code c =? 95).

(** [for s.accept(digits) {}]: the longest prefix in the digit set. *)
Fixpoint acceptDigits (s : string) : string * string :=
  match s with
  | String c r =>
      if isDigitOrUnderscore c
      then let (tok, rest) := acceptDigits r in (String c tok, rest)
      else (EmptyString, s)
  | EmptyString => (EmptyString, s)
  end.

(** The loop of [strconv.ParseUint(s, 10, 64)] from the accumulator [n]:
    a byte that is no decimal digit is a syntax error (an underscore
    too, the base being given), and the two overflow tests come after
    the digit is decoded. *)
Fixpoint parseUintLoop (tok s : string) (n : Z) : ScanError + Z :=
  match s with
  | EmptyString => inr n
  | String c r =>
      if negb (isDigit c) then inl (ErrSyntax tok)
      else if uint64_max / 10 + 1 <=? n then inl (ErrRange tok)
      else
        let n1 := n * 10 + (code c - 48) in
        if uint64_max <? n1 then inl (ErrRange tok)
        else parseUintLoop tok r n1
  end.

Definition ParseUint (tok s : string) : ScanError + Z :=
  match s with
  | EmptyString => inl (ErrSyntax tok)
  | _ => parseUintLoop tok s 0
  end.

(** [strconv.ParseInt(tok, 10, 64)]. *)
Definition ParseInt (tok : string) : ScanError + Z :=
  match tok with
  | EmptyString => inl (ErrSyntax tok)
  | String c r =>
      let neg := code c =? 45 in
      let s := if (code c =? 43) || neg then r else tok in
      match ParseUint tok s with
      | inl e => inl e   (* a range error of ParseUint stays a range error *)
      | inr un =>
          if negb neg && (2 ^ 63 <=? un) then inl (ErrRange tok)
          else if neg && (2 ^ 63 <? un) then inl (ErrRange tok)
          else inr (if neg then - un else un)
      end
  end.

(** [fmt.Sscanf(s, "%d", &n)] for [n : int64]: leading space skipped, an
    optional sign, the digits, then [ParseInt]; what follows the number
    is left unread.  [inl] is a non-nil [err]. *)
Definition Sscanf_d (s : string) : ScanError + Z :=
  match SkipSpace s with
  | inl e => inl e
  | inr s1 =>
      match s1 with
      | EmptyString => inl ErrEOF
      | _ =>
          let (sign, s2) := acceptSign s1 in
          match s2 with
          | EmptyString => inl ErrEOF
          | String c _ =>
              if negb (isDigitOrUnderscore c) then inl ErrExpectedInteger
              else
                let (digits, _) := acceptDigits s2 in
                ParseInt (sign +:+ digits)
          end
      end
  end.

End fmt.

(* ===================================================================== *)
(** ** The plugin framework: attribute values and diagnostics *)
(* ===================================================================== *)

(** [types.String] and [types.Bool] of the framework are structs of three
    fields, [Unknown], [Null] and [Value]; the code reads the fields
    directly. *)
Module types.

Record attr (A : Type) : Type := mkAttr { Unknown : bool; Null : bool; Value : A }.
Arguments mkAttr {A} _ _ _.
Arguments Unknown {A} _.
Arguments Null {A} _.
Arguments Value {A} _.

Definition String : Type := attr string.
Definition Bool : Type := attr bool.

(** [types.String{Value: v}] and [types.Bool{Value: v}]: the other two
    fields keep their zero value. *)
Definition known {A : Type} (v : A) : attr A := mkAttr false false v.

(** The null value, as the framework decodes an absent attribute. *)
Definition null {A : Type} (zero : A) : attr A := mkAttr false true zero.

(** The unknown value of a plan or of a configuration not yet resolved. *)
Definition unknown {A : Type} (zero : A) : attr A := mkAttr true false zero.

Definition IsNull {A : Type} (a : attr A) : bool := Null a.

#[global] Instance attr_eq_dec {A : Type} `{EqDecision A} : EqDecision (attr A).
Proof. solve_decision. Defined.

End types.

Module diag.

Inductive Severity : Type := SeverityError | SeverityWarning.

Record Diagnostic : Type := mkDiagnostic {
  severity : Severity;
  Summary : string;
  Detail : string
}.

#[global] Instance Severity_eq_dec : EqDecision Severity.
Proof. solve_decision. Defined.

#[global] Instance Diagnostic_eq_dec : EqDecision Diagnostic.
Proof. solve_decision. Defined.

Definition Diagnostics : Type := list Diagnostic.

Definition isError (d : Diagnostic) : bool :=
  match severity d with SeverityError => true | SeverityWarning => false end.

Definition HasError (ds : Diagnostics) : bool := existsb isError ds.

(** [Diagnostics.Append] keeps the order and skips a diagnostic that the
    collection already holds. *)
Definition Append1 (ds : Diagnostics) (d : Diagnostic) : Diagnostics :=
  if bool_decide (d ∈ ds) then ds else (ds ++ [d])%list.

Definition Append (ds more : Diagnostics) : Diagnostics :=
  fold_left Append1 more ds.

Definition AddError (ds : Diagnostics) (summary detail : string) : Diagnostics :=
  Append1 ds (mkDiagnostic SeverityError summary detail).

Definition AddWarning (ds : Diagnostics) (summary detail : string) : Diagnostics :=
  Append1 ds (mkDiagnostic SeverityWarning summary detail).

End diag.

(** [req.Plan], [req.State] and [req.Config] are read with [Get] into a
    model struct; [Get] hands back the decoded model and the diagnostics of
    the decoding. *)
Module tfsdk.

Record Source (M : Type) : Type := mkSource {
  Get_model : M;
  Get_diags : diag.Diagnostics
}.
Arguments mkSource {M} _ _.
Arguments Get_model {M} _.
Arguments Get_diags {M} _.

(** A source that decodes without a diagnostic. *)
Definition clean {M : Type} (m : M) : Source M := mkSource m [].

End tfsdk.

(* ===================================================================== *)
(** ** [strings] *)
(* ===================================================================== *)

Module strings.

(** [strings.Split(s, sep)] for a separator of one byte, the only use in
    the provider: the pieces between the occurrences of [sep], an empty
    [s] giving one empty piece. *)
Fixpoint Split (s : string) (sep : ascii) : list string :=
  match s with
  | EmptyString => [EmptyString]
  | String c r =>
      if Ascii.eqb c sep then EmptyString :: Split r sep
      else
        match Split r sep with
        | p :: ps => String c p :: ps
        | [] => [String c EmptyString]
        end
  end.

(** [strings.Count(s, sep)] for the same separators. *)
Fixpoint Count (s : string) (sep : ascii) : nat :=
  match s with
  | EmptyString => O
  | String c r => if Ascii.eqb c sep then S (Count r sep) else Count r sep
  end.

(** [strings.Cut(s, sep)] for a separator of one byte: what stands before
    and what stands after the first [sep], and [true]; without a [sep],
    [s] itself, the empty string and [false]. *)
Fixpoint Cut (s : string) (sep : ascii) : string * string * bool :=
  match s with
  | EmptyString => (EmptyString, EmptyString, false)
  | String c r =>
      if Ascii.eqb c sep then (EmptyString, r, true)
      else
        let '(before, after, found) := Cut r sep in
        (String c before, after, found)
  end.

End strings.

(** [os.Getenv]: the value of the variable, empty when it is not set. *)
Module os.

Definition Getenv (env : gmap string string) (key : string) : string :=
  default EmptyString (env !! key).

End os.

(* ===================================================================== *)
(** ** The Sanity client *)
(* ===================================================================== *)

(** The client package is a dependency of the provider.  Its structs are
    given with the fields the provider reads and writes, its methods with
    the arguments the provider passes; a method hands back a Go pair of a
    result and an [error].  A pointer result is an [option] ([None] is
    [nil]), an [error] is [None] when it is [nil] and otherwise carries
    the text of [err.Error()]. *)
Module sanity.

Definition error : Type := string.

Record Project : Type := mkProject {
  Project_Id : string;
  Project_DisplayName : string;
  Project_OrganizationId : string;
  Project_StudioHost : string;
  Project_Metadata : gmap string string;
  Project_IsDisabledByUser : bool;
  Project_ActivityFeedEnabled : bool
}.

Record CORSEntry : Type := mkCORSEntry {
  CORSEntry_Id : Z;                    (* int64 *)
  CORSEntry_Origin : string;
  CORSEntry_AllowCredentials : bool
}.

Record Dataset : Type := mkDataset {
  Dataset_Name : string;
  Dataset_AclMode : string
}.

Record CreateProjectRequest : Type := mkCreateProjectRequest {
  CreateProjectRequest_DisplayName : string;
  CreateProjectRequest_OrganizationId : string
}.

(** The string fields hold the empty string until the provider assigns
    them, the [*bool] fields hold [nil]. *)
Record UpdateProjectRequest : Type := mkUpdateProjectRequest {
  UpdateProjectRequest_DisplayName : string;
  UpdateProjectRequest_StudioHost : string;
  UpdateProjectRequest_ExternalStudioHost : string;
  UpdateProjectRequest_Color : string;
  UpdateProjectRequest_IsDisabledByUser : option bool;
  UpdateProjectRequest_ActivityFeedEnabled : option bool
}.

Record CreateCORSEntryRequest : Type := mkCreateCORSEntryRequest {
  CreateCORSEntryRequest_Origin : string;
  CreateCORSEntryRequest_AllowCredentials : option bool
}.

Record CreateDatasetRequest : Type := mkCreateDatasetRequest {
  CreateDatasetRequest_Name : string;
  CreateDatasetRequest_AclMode : string
}.

(** [sanity.NewBool(b)]: a pointer to [b]. *)
Definition NewBool (b : bool) : option bool := Some b.

(** [m[key]] on a [map[string]string]: the empty string when the key is
    missing. *)
Definition index (m : gmap string string) (key : string) : string :=
  default EmptyString (m !! key).

(** The calls of [client.Projects] that the provider issues. *)
Inductive Call : Type :=
| CallCreate (r : CreateProjectRequest)
| CallGet (id : string)
| CallUpdate (id : string) (r : UpdateProjectRequest)
| CallDelete (id : string)
| CallListCORSEntries (project : string)
| CallCreateCORSEntry (project : string) (r : CreateCORSEntryRequest)
| CallDeleteCORSEntry (project : string) (id : Z)
| CallListDatasets (project : string)
| CallCreateDataset (project : string) (r : CreateDatasetRequest)
| CallDeleteDataset (project name : string).

(** The service behind the client: what each method answers, given the
    calls issued before it. *)
Record Backend : Type := mkBackend {
  onCreate : list Call -> CreateProjectRequest -> option Project * option error;
  onGet : list Call -> string -> option Project * option error;
  onUpdate : list Call -> string -> UpdateProjectRequest -> option Project * option error;
  onDelete : list Call -> string -> option error;
  onListCORSEntries : list Call -> string -> list CORSEntry * option error;
  onCreateCORSEntry :
    list Call -> string -> CreateCORSEntryRequest -> option CORSEntry * option error;
  onDeleteCORSEntry : list Call -> string -> Z -> option error;
  onListDatasets : list Call -> string -> list Dataset * option error;
  onCreateDataset :
    list Call -> string -> CreateDatasetRequest -> option Dataset * option error;
  onDeleteDataset : list Call -> string -> string -> option error
}.

(** [oauth2.NewClient(ctx, oauth2.StaticTokenSource(&oauth2.Token{AccessToken: token}))]
    and [sanity.NewClient(httpClient)]: the handle is determined by the
    token it sends. *)
Record HttpClient : Type := mkHttpClient { AccessToken : string }.

Record Client : Type := mkClient { httpClient : HttpClient }.

Definition NewClient (h : HttpClient) : Client := mkClient h.

End sanity.

(** *** Operations: a log of calls, and the nil dereference *)

(** An operation either returns or stops in a run-time panic (the
    dereference of a nil pointer); the calls issued so far are kept in
    both cases, oldest first. *)
Inductive Outcome (A : Type) : Type :=
| Returned (a : A)
| Panicked.
Arguments Returned {A} _.
Arguments Panicked {A}.

Definition Op (A : Type) : Type := list sanity.Call -> Outcome A * list sanity.Call.

#[global] Instance Op_ret : MRet Op := fun A a log => (Returned a, log).

#[global] Instance Op_bind : MBind Op := fun A B f m log =>
  match m log with
  | (Returned a, log') => f a log'
  | (Panicked, log') => (Panicked, log')
  end.

(** [p.f] on a pointer [p]. *)
Definition deref {T : Type} (p : option T) : Op T := fun log =>
  match p with
  | Some v => (Returned v, log)
  | None => (Panicked, log)
  end.

(** Running an operation from an empty log. *)
Definition run {A : Type} (m : Op A) : Outcome A * list sanity.Call := m [].

Definition calls {A : Type} (m : Op A) : list sanity.Call := snd (run m).

Definition result {A : Type} (m : Op A) : Outcome A := fst (run m).

Module Projects.
Import sanity.

Section WithBackend.
Variable c : Backend.

Definition Create (r : CreateProjectRequest) : Op (option Project * option error) :=
  fun log => (Returned (onCreate c log r), (log ++ [CallCreate r])%list).

Definition Get (id : string) : Op (option Project * option error) :=
  fun log => (Returned (onGet c log id), (log ++ [CallGet id])%list).

Definition Update (id : string) (r : UpdateProjectRequest)
  : Op (option Project * option error) :=
  fun log => (Returned (onUpdate c log id r), (log ++ [CallUpdate id r])%list).

Definition Delete (id : string) : Op (option error) :=
  fun log => (Returned (onDelete c log id), (log ++ [CallDelete id])%list).

Definition ListCORSEntries (project : string) : Op (list CORSEntry * option error) :=
  fun log =>
    (Returned (onListCORSEntries c log project),
     (log ++ [CallListCORSEntries project])%list).

Definition CreateCORSEntry (project : string) (r : CreateCORSEntryRequest)
  : Op (option CORSEntry * option error) :=
  fun log =>
    (Returned (onCreateCORSEntry c log project r),
     (log ++ [CallCreateCORSEntry project r])%list).

Definition DeleteCORSEntry (project : string) (id : Z) : Op (option error) :=
  fun log =>
    (Returned (onDeleteCORSEntry c log project id),
     (log ++ [CallDeleteCORSEntry project id])%list).

Definition ListDatasets (project : string) : Op (list Dataset * option error) :=
  fun log =>
    (Returned (onListDatasets c log project),
     (log ++ [CallListDatasets project])%list).

Definition CreateDataset (project : string) (r : CreateDatasetRequest)
  : Op (option Dataset * option error) :=
  fun log =>
    (Returned (onCreateDataset c log project r),
     (log ++ [CallCreateDataset project r])%list).

Definition DeleteDataset (project name : string) : Op (option error) :=
  fun log =>
    (Returned (onDeleteDataset c log project name),
     (log ++ [CallDeleteDataset project name])%list).

End WithBackend.
End Projects.

(* ===================================================================== *)
(** ** The default-value plan modifier *)
(* ===================================================================== *)

Module attribute_plan_modifier.

(** [defaultValueAttributePlanModifier{DefaultValue: v}], built by
    [DefaultValue(v)]. *)
Record defaultValueAttributePlanModifier (A : Type) : Type := DefaultValue {
  defaultValue : types.attr A
}.
Arguments DefaultValue {A} _.
Arguments defaultValue {A} _.

(** [Modify]: [req.AttributeConfig] is the configured value of the
    attribute; the result is [res.AttributePlan], which enters as the plan
    computed so far. *)
Definition Modify {A : Type} (apm : defaultValueAttributePlanModifier A)
  (AttributeConfig AttributePlan : types.attr A) : types.attr A :=
  if negb (types.IsNull AttributeConfig) then AttributePlan
  else defaultValue apm.

End attribute_plan_modifier.

(* ===================================================================== *)
(** ** Resources *)
(* ===================================================================== *)

(** What an operation leaves in its response: the diagnostics, and the
    model it wrote with [resp.State.Set] ([None] when it wrote none).
    [State.Set] of a decoded model adds no diagnostic. *)
Module resource.

Record Response (M : Type) : Type := mkResponse {
  Diagnostics : diag.Diagnostics;
  State : option M
}.
Arguments mkResponse {M} _ _.
Arguments Diagnostics {M} _.
Arguments State {M} _.

(** The response of [ImportState]: attributes are set one by one, by
    name. *)
Record ImportStateResponse : Type := mkImportStateResponse {
  ImportDiagnostics : diag.Diagnostics;
  ImportState : gmap string string
}.

(** [resource.ImportStatePassthroughID(ctx, path.Root(attr), req, resp)]:
    the request's ID becomes the value of the attribute. *)
Definition ImportStatePassthroughID (attr ID : string) (resp : ImportStateResponse)
  : ImportStateResponse :=
  mkImportStateResponse (ImportDiagnostics resp) (<[attr := ID]> (ImportState resp)).

(** [req.ProviderData], of type [any]: nil before the provider is
    configured, the client the provider published, or a value of another
    type, known by the name that [%T] prints. *)
Inductive any : Type :=
| Nil
| ofClient (client : sanity.Client)
| ofOther (typeName : string).


End resource.

(** *** [ProjectResource] *)
Module ProjectResource.
Import sanity.

Record ProjectResourceModel : Type := mkModel {
  Id : types.String;
  Name : types.String;
  Organization : types.String;
  StudioHost : types.String;
  ExternalStudioHost : types.String;
  Color : types.String;
  IsDisabledByUser : types.Bool;
  ActivityFeedEnabled : types.Bool
}.

Definition Response : Type := resource.Response ProjectResourceModel.

(** The eight assignments that end [Create], [Read] and [Update]: every
    field of the model is taken from the project the service returned. *)
Definition fromProject (project : Project) : ProjectResourceModel :=
  {| Id := types.known (Project_Id project);
     Name := types.known (Project_DisplayName project);
     Organization := types.known (Project_OrganizationId project);
     StudioHost := types.known (Project_StudioHost project);
     ExternalStudioHost :=
       types.known (index (Project_Metadata project) "externalStudioHost");
     Color := types.known (index (Project_Metadata project) "color");
     IsDisabledByUser := types.known (Project_IsDisabledByUser project);
     ActivityFeedEnabled := types.known (Project_ActivityFeedEnabled project) |}.

Section WithBackend.
Variable c : Backend.

(** The loop of [Create] over the listed entries.  [Some resp] is the
    [return] inside the loop, [None] the loop run to its end. *)
Fixpoint purgeEntries (diags : diag.Diagnostics) (projectId : string)
  (entries : list CORSEntry) : Op (option Response) :=
  match entries with
  | [] => mret None
  | entry :: rest =>
      err ← Projects.DeleteCORSEntry c projectId (CORSEntry_Id entry);
      match err with
      | Some e =>
          _ ← Projects.Delete c projectId;
          mret (Some (resource.mkResponse (diag.AddError diags "Client Error" e) None))
      | None => purgeEntries diags projectId rest
      end
  end.

Definition Create (plan : tfsdk.Source ProjectResourceModel) : Op Response :=
  let data := tfsdk.Get_model plan in
  let diags := diag.Append [] (tfsdk.Get_diags plan) in
  if diag.HasError diags then mret (resource.mkResponse diags None)
  else
    '(project, err) ← Projects.Create c
      {| CreateProjectRequest_DisplayName := types.Value (Name data);
         CreateProjectRequest_OrganizationId := types.Value (Organization data) |};
    match err with
    | Some e => mret (resource.mkResponse (diag.AddError diags "Client Error" e) None)
    | None =>
        p ← deref project;
        '(entries, err) ← Projects.ListCORSEntries c (Project_Id p);
        match err with
        | Some e =>
            mret (resource.mkResponse (diag.AddError diags "Client Error" e) None)
        | None =>
            early ← purgeEntries diags (Project_Id p) entries;
            match early with
            | Some resp => mret resp
            | None =>
                let requiresUpdate :=
                  negb (types.Null (StudioHost data))
                  || negb (types.Null (ExternalStudioHost data))
                  || negb (types.Null (Color data))
                  || negb (types.Null (IsDisabledByUser data))
                  || negb (types.Null (ActivityFeedEnabled data)) in
                if requiresUpdate then
                  let updateReq :=
                    {| UpdateProjectRequest_DisplayName := EmptyString;
                       UpdateProjectRequest_StudioHost :=
                         if negb (types.Null (StudioHost data))
                         then types.Value (StudioHost data) else EmptyString;
                       UpdateProjectRequest_ExternalStudioHost :=
                         if negb (types.Null (ExternalStudioHost data))
                         then types.Value (ExternalStudioHost data) else EmptyString;
                       UpdateProjectRequest_Color :=
                         if negb (types.Null (Color data))
                         then types.Value (Color data) else EmptyString;
                       UpdateProjectRequest_IsDisabledByUser :=
                         if negb (types.Null (IsDisabledByUser data))
                         then NewBool (types.Value (IsDisabledByUser data)) else None;
                       UpdateProjectRequest_ActivityFeedEnabled :=
                         if negb (types.Null (ActivityFeedEnabled data))
                         then NewBool (types.Value (ActivityFeedEnabled data))
                         else None |} in
                  '(project, err) ← Projects.Update c (Project_Id p) updateReq;
                  match err with
                  | Some e =>
                      p' ← deref project;
                      _ ← Projects.Delete c (Project_Id p');
                      mret (resource.mkResponse
                              (diag.AddError diags "Client Error" e) None)
                  | None =>
                      p' ← deref project;
                      mret (resource.mkResponse diags (Some (fromProject p')))
                  end
                else mret (resource.mkResponse diags (Some (fromProject p)))
            end
        end
    end.

Definition Read (state : tfsdk.Source ProjectResourceModel) : Op Response :=
  let data := tfsdk.Get_model state in
  let diags := diag.Append [] (tfsdk.Get_diags state) in
  if diag.HasError diags then mret (resource.mkResponse diags None)
  else if types.Null (Id data) then
    mret (resource.mkResponse
            (diag.AddError diags "Project id is null" "Project id is null") None)
  else
    '(project, err) ← Projects.Get c (types.Value (Id data));
    match err with
    | Some e => mret (resource.mkResponse (diag.AddError diags "Client Error" e) None)
    | None =>
        p ← deref project;
        mret (resource.mkResponse diags (Some (fromProject p)))
    end.

(** The request that [Update] builds: a field is assigned under its
    guard and keeps its zero value otherwise.  [studioHost] is the Go
    string that [req.State.GetAttribute] read from the prior state. *)
Definition updateRequest (data : ProjectResourceModel) (studioHost : string)
  : UpdateProjectRequest :=
  {| UpdateProjectRequest_DisplayName :=
       if negb (types.Null (Name data)) then types.Value (Name data) else EmptyString;
     UpdateProjectRequest_StudioHost :=
       if String.eqb studioHost EmptyString && negb (types.Null (StudioHost data))
       then types.Value (StudioHost data) else EmptyString;
     UpdateProjectRequest_ExternalStudioHost :=
       if negb (types.Null (ExternalStudioHost data))
       then types.Value (ExternalStudioHost data) else EmptyString;
     UpdateProjectRequest_Color :=
       if negb (types.Null (Color data)) then types.Value (Color data) else EmptyString;
     UpdateProjectRequest_IsDisabledByUser :=
       if negb (types.Null (IsDisabledByUser data))
       then NewBool (types.Value (IsDisabledByUser data)) else None;
     UpdateProjectRequest_ActivityFeedEnabled :=
       if negb (types.Null (ActivityFeedEnabled data))
       then NewBool (types.Value (ActivityFeedEnabled data)) else None |}.

Definition requiresUpdate (data : ProjectResourceModel) (studioHost : string) : bool :=
  negb (types.Null (Name data))
  || (negb (types.Null (StudioHost data)) && String.eqb studioHost EmptyString)
  || negb (types.Null (ExternalStudioHost data))
  || negb (types.Null (Color data))
  || negb (types.Null (IsDisabledByUser data))
  || negb (types.Null (ActivityFeedEnabled data)).

(** [Update]: the plan, and the string [studioHost] that
    [req.State.GetAttribute(ctx, path.Root("studio_host"), &studioHost)]
    leaves in the local variable (the diagnostics of that call are
    dropped by the code). *)
Definition Update (plan : tfsdk.Source ProjectResourceModel) (studioHost : string)
  : Op Response :=
  let data := tfsdk.Get_model plan in
  let diags := diag.Append [] (tfsdk.Get_diags plan) in
  if diag.HasError diags then mret (resource.mkResponse diags None)
  else if types.Null (Id data) then
    mret (resource.mkResponse
            (diag.AddError diags "Project id is null" "Project id is null") None)
  else if negb (requiresUpdate data studioHost) then
    mret (resource.mkResponse diags None)
  else
    '(project, err) ← Projects.Update c (types.Value (Id data))
                         (updateRequest data studioHost);
    match err with
    | Some e =>
        p ← deref project;
        _ ← Projects.Delete c (Project_Id p);
        mret (resource.mkResponse (diag.AddError diags "Client Error" e) None)
    | None =>
        p ← deref project;
        mret (resource.mkResponse diags (Some (fromProject p)))
    end.

Definition Delete (state : tfsdk.Source ProjectResourceModel) : Op Response :=
  let data := tfsdk.Get_model state in
  let diags := diag.Append [] (tfsdk.Get_diags state) in
  if diag.HasError diags then mret (resource.mkResponse diags None)
  else if types.Null (Id data) then
    mret (resource.mkResponse
            (diag.AddError diags "Project id is null" "Project id is null") None)
  else
    err ← Projects.Delete c (types.Value (Id data));
    match err with
    | Some e =>
        mret (resource.mkResponse
                (diag.AddError diags "Client Error"
                   ("project " +:+ types.Value (Id data)
                    +:+ " could not be deleted, got error: " +:+ e)) None)
    | None => mret (resource.mkResponse diags None)
    end.

End WithBackend.

(** [Configure]: the diagnostics, and the [client] field of the resource
    after the call ([client] is the field before it). *)
Definition Configure (client : option sanity.Client) (ProviderData : resource.any)
  : diag.Diagnostics * option sanity.Client :=
  match ProviderData with
  | resource.Nil => ([], client)
  | resource.ofClient provided => ([], Some provided)
  | resource.ofOther typeName =>
      (diag.AddError [] "Unexpected Resource Configure Type"
         ("Expected *http.Client, got: " +:+ typeName
          +:+ ". Please report this issue to the provider developers."),
       client)
  end.

(** The calls with which the loop of [Create] deletes the listed
    entries, in the order of the listing. *)
Definition deletions (projectId : string) (entries : list CORSEntry) : list Call :=
  map (fun e => CallDeleteCORSEntry projectId (CORSEntry_Id e)) entries.

(** [ImportState]: the identifier becomes the [id] attribute. *)
Definition ImportState (ID : string) : resource.ImportStateResponse :=
  resource.ImportStatePassthroughID "id" ID (resource.mkImportStateResponse [] ∅).

(** The plan modifiers that the schema attaches to [disabled_by_user] and
    to [activity_feed_enabled]. *)
Definition disabled_by_user_modifier : attribute_plan_modifier.defaultValueAttributePlanModifier bool :=
  attribute_plan_modifier.DefaultValue (types.known false).

Definition activity_feed_enabled_modifier : attribute_plan_modifier.defaultValueAttributePlanModifier bool :=
  attribute_plan_modifier.DefaultValue (types.known true).

End ProjectResource.

(** The text of a scan error, [err.Error()], is fixed by Go's library; the
    provider only copies it into a diagnostic. *)
Class ErrorText : Type := Error : fmt.ScanError -> string.

(** *** [CORSOriginResource] *)
Module CORSOriginResource.
Import sanity.

Record CORSOriginResourceModel : Type := mkModel {
  Id : types.String;
  Origin : types.String;
  AllowCredentials : types.Bool;
  Project : types.String
}.

Definition Response : Type := resource.Response CORSOriginResourceModel.

Section WithBackend.
Variable c : Backend.
Context {errorText : ErrorText}.

(** [corsReq]: allow-credentials is a pointer to [true], replaced by
    the planned value when the plan has one. *)
Definition createRequest (data : CORSOriginResourceModel) : CreateCORSEntryRequest :=
  {| CreateCORSEntryRequest_Origin := types.Value (Origin data);
     CreateCORSEntryRequest_AllowCredentials :=
       if negb (types.IsNull (AllowCredentials data))
       then NewBool (types.Value (AllowCredentials data))
       else NewBool true |}.

Definition Create (plan : tfsdk.Source CORSOriginResourceModel) : Op Response :=
  let data := tfsdk.Get_model plan in
  let diags := diag.Append [] (tfsdk.Get_diags plan) in
  if diag.HasError diags then mret (resource.mkResponse diags None)
  else
    let corsReq := createRequest data in
    '(entry, err) ← Projects.CreateCORSEntry c (types.Value (Project data)) corsReq;
    match err with
    | Some e => mret (resource.mkResponse (diag.AddError diags "Client Error" e) None)
    | None =>
        e ← deref entry;
        mret (resource.mkResponse diags
                (Some {| Id := types.known (fmt.Sprintf_d (CORSEntry_Id e));
                         Origin := Origin data;
                         AllowCredentials := types.known (CORSEntry_AllowCredentials e);
                         Project := Project data |}))
    end.

Definition Read (state : tfsdk.Source CORSOriginResourceModel) : Op Response :=
  let data := tfsdk.Get_model state in
  let diags := diag.Append [] (tfsdk.Get_diags state) in
  if diag.HasError diags then mret (resource.mkResponse diags None)
  else if types.Null (Id data) then
    mret (resource.mkResponse
            (diag.AddError diags "Entry id is null" "Entry id is null") None)
  else if types.Null (Project data) then
    mret (resource.mkResponse
            (diag.AddError diags "Project is null" "Project is null") None)
  else
    '(entries, err) ← Projects.ListCORSEntries c (types.Value (Project data));
    match err with
    | Some e => mret (resource.mkResponse (diag.AddError diags "Client Error" e) None)
    | None =>
        match fmt.Sscanf_d (types.Value (Id data)) with
        | inl err =>
            mret (resource.mkResponse
                    (diag.AddError diags "Client Error" (Error err)) None)
        | inr rawId =>
            match find (fun e => CORSEntry_Id e =? rawId) entries with
            | None =>
                mret (resource.mkResponse
                        (diag.AddError diags "cors entry not found"
                           "cors entry not found") None)
            | Some entry =>
                mret (resource.mkResponse diags
                        (Some {| Id := Id data;
                                 Origin := types.known (CORSEntry_Origin entry);
                                 AllowCredentials :=
                                   types.known (CORSEntry_AllowCredentials entry);
                                 Project := Project data |}))
            end
        end
    end.

Definition Update (plan : tfsdk.Source CORSOriginResourceModel) : Op Response :=
  mret (resource.mkResponse
          (diag.AddError [] "Provider Error" "Update is not supported on CORS entry")
          None).

Definition Delete (state : tfsdk.Source CORSOriginResourceModel) : Op Response :=
  let data := tfsdk.Get_model state in
  let diags := diag.Append [] (tfsdk.Get_diags state) in
  if diag.HasError diags then mret (resource.mkResponse diags None)
  else if types.Null (Id data) then
    mret (resource.mkResponse
            (diag.AddError diags "Entry id is null" "Entry id is null") None)
  else if types.Null (Project data) then
    mret (resource.mkResponse
            (diag.AddError diags "Project is null" "Project is null") None)
  else
    match fmt.Sscanf_d (types.Value (Id data)) with
    | inl err =>
        mret (resource.mkResponse
                (diag.AddError diags "Client Error" (Error err)) None)
    | inr rawId =>
        err ← Projects.DeleteCORSEntry c (types.Value (Project data)) rawId;
        match err with
        | Some e =>
            mret (resource.mkResponse
                    (diag.AddError diags "Client Error"
                       ("entry " +:+ types.Value (Id data)
                        +:+ " could not be deleted, got error: " +:+ e)) None)
        | None => mret (resource.mkResponse diags None)
        end
    end.

End WithBackend.

Definition Configure (client : option sanity.Client) (ProviderData : resource.any)
  : diag.Diagnostics * option sanity.Client :=
  match ProviderData with
  | resource.Nil => ([], client)
  | resource.ofClient provided => ([], Some provided)
  | resource.ofOther typeName =>
      (diag.AddError [] "Unexpected Resource Configure Type"
         ("Expected *http.Client, got: " +:+ typeName
          +:+ ". Please report this issue to the provider developers."),
       client)
  end.

(** The plan modifier that the schema attaches to [allow_credentials]
    (next to the replace-on-change modifier, which leaves the value). *)
Definition allow_credentials_modifier : attribute_plan_modifier.defaultValueAttributePlanModifier bool :=
  attribute_plan_modifier.DefaultValue (types.known true).

(** The loop of [ImportState] over the listed entries: the first entry of
    the wanted origin sets [id] and [project]; the error follows the loop. *)
Fixpoint importEntries (projectId origin : string) (entries : list CORSEntry)
  (resp : resource.ImportStateResponse) : resource.ImportStateResponse :=
  match entries with
  | [] =>
      resource.mkImportStateResponse
        (diag.AddError (resource.ImportDiagnostics resp) "Import Error"
           "The requested CORS origin was not found")
        (resource.ImportState resp)
  | e :: rest =>
      if String.eqb (CORSEntry_Origin e) origin then
        resource.ImportStatePassthroughID "project" projectId
          (resource.ImportStatePassthroughID "id" (fmt.Sprintf_d (CORSEntry_Id e)) resp)
      else importEntries projectId origin rest resp
  end.

Definition ImportState (c : Backend) (ID : string) : Op resource.ImportStateResponse :=
  let resp := resource.mkImportStateResponse [] ∅ in
  let '(projectId, origin, _) := strings.Cut ID "/"%char in
  if String.eqb projectId EmptyString || String.eqb origin EmptyString then
    mret (resource.mkImportStateResponse
            (diag.AddError (resource.ImportDiagnostics resp) "Import Error"
               "The format for importing a CORS origin is project-id/origin")
            (resource.ImportState resp))
  else
    '(entries, err) ← Projects.ListCORSEntries c projectId;
    match err with
    | Some e =>
        mret (resource.mkImportStateResponse
                (diag.AddError (resource.ImportDiagnostics resp) "Import Error" e)
                (resource.ImportState resp))
    | None => mret (importEntries projectId origin entries resp)
    end.

End CORSOriginResource.

(** *** [DatasetResource] *)
Module DatasetResource.
Import sanity.

Record DatasetResourceModel : Type := mkModel {
  Project : types.String;
  Name : types.String;
  AclMode : types.String
}.

Definition Response : Type := resource.Response DatasetResourceModel.

Section WithBackend.
Variable c : Backend.

Definition Create (plan : tfsdk.Source DatasetResourceModel) : Op Response :=
  let data := tfsdk.Get_model plan in
  let diags := diag.Append [] (tfsdk.Get_diags plan) in
  if diag.HasError diags then mret (resource.mkResponse diags None)
  else
    '(_, err) ← Projects.CreateDataset c (types.Value (Project data))
      {| CreateDatasetRequest_Name := types.Value (Name data);
         CreateDatasetRequest_AclMode := types.Value (AclMode data) |};
    match err with
    | Some e => mret (resource.mkResponse (diag.AddError diags "Client Error" e) None)
    | None => mret (resource.mkResponse diags (Some data))
    end.

Definition Read (state : tfsdk.Source DatasetResourceModel) : Op Response :=
  let data := tfsdk.Get_model state in
  let diags := diag.Append [] (tfsdk.Get_diags state) in
  if diag.HasError diags then mret (resource.mkResponse diags None)
  else
    let projectId := types.Value (Project data) in
    '(datasets, err) ← Projects.ListDatasets c projectId;
    match err with
    | Some e => mret (resource.mkResponse (diag.AddError diags "Client Error" e) None)
    | None =>
        match find (fun d => String.eqb (Dataset_Name d) (types.Value (Name data)))
                datasets with
        | None =>
            mret (resource.mkResponse
                    (diag.AddError diags "dataset not found" "dataset not found") None)
        | Some dataset =>
            mret (resource.mkResponse diags
                    (Some {| Project := Project data;
                             Name := Name data;
                             AclMode := types.known (Dataset_AclMode dataset) |}))
        end
    end.

Definition Update (plan : tfsdk.Source DatasetResourceModel) : Op Response :=
  mret (resource.mkResponse
          (diag.AddError [] "Provider Error" "Update is not supported on dataset")
          None).

Definition Delete (state : tfsdk.Source DatasetResourceModel) : Op Response :=
  let data := tfsdk.Get_model state in
  let diags := diag.Append [] (tfsdk.Get_diags state) in
  if diag.HasError diags then mret (resource.mkResponse diags None)
  else if types.Null (Name data) then
    mret (resource.mkResponse (diag.AddError diags "Name is null" "Name is null") None)
  else if types.Null (Project data) then
    mret (resource.mkResponse
            (diag.AddError diags "Project is null" "Project is null") None)
  else
    err ← Projects.DeleteDataset c (types.Value (Project data))
            (types.Value (Name data));
    match err with
    | Some e =>
        mret (resource.mkResponse
                (diag.AddError diags "Client Error"
                   ("dataset " +:+ types.Value (Name data)
                    +:+ " could not be deleted, got error: " +:+ e)) None)
    | None => mret (resource.mkResponse diags None)
    end.

End WithBackend.

(** [ImportState]: no call on the client. *)
Definition ImportState (ID : string) : resource.ImportStateResponse :=
  let resp := resource.mkImportStateResponse [] ∅ in
  match strings.Split ID "/"%char with
  | [project; name] =>
      resource.ImportStatePassthroughID "name" name
        (resource.ImportStatePassthroughID "project" project resp)
  | _ =>
      resource.mkImportStateResponse
        (diag.AddError (resource.ImportDiagnostics resp) "Input Error"
           "The import identifier for a dataset should be in the form project-id/dataset-name")
        (resource.ImportState resp)
  end.


Definition Configure (client : option sanity.Client) (ProviderData : resource.any)
  : diag.Diagnostics * option sanity.Client :=
  match ProviderData with
  | resource.Nil => ([], client)
  | resource.ofClient provided => ([], Some provided)
  | resource.ofOther typeName =>
      (diag.AddError [] "Unexpected Resource Configure Type"
         ("Expected *http.Client, got: " +:+ typeName
          +:+ ". Please report this issue to the provider developers."),
       client)
  end.

End DatasetResource.

(** *** [ProjectDataSource] *)
Module ProjectDataSource.
Import sanity.

Record ProjectDataSourceModel : Type := mkModel {
  Id : types.String;
  Name : types.String;
  Organization : types.String;
  StudioHost : types.String;
  ExternalStudioHost : types.String;
  IsDisabledByUser : types.Bool;
  ActivityFeedEnabled : types.Bool
}.

Definition Response : Type := resource.Response ProjectDataSourceModel.

Definition Configure (client : option sanity.Client) (ProviderData : resource.any)
  : diag.Diagnostics * option sanity.Client :=
  match ProviderData with
  | resource.Nil => ([], client)
  | resource.ofClient provided => ([], Some provided)
  | resource.ofOther typeName =>
      (diag.AddError [] "Unexpected Data Source Configure Type"
         ("Expected *sanity.Client, got: " +:+ typeName
          +:+ ". Please report this issue to the provider developers."),
       client)
  end.

(** [Read]: the model is decoded from the configuration. *)
Definition Read (c : Backend) (config : tfsdk.Source ProjectDataSourceModel) : Op Response :=
  let data := tfsdk.Get_model config in
  let diags := diag.Append [] (tfsdk.Get_diags config) in
  if diag.HasError diags then mret (resource.mkResponse diags None)
  else if types.Null (Id data) then
    mret (resource.mkResponse
            (diag.AddError diags "Project id is null" "Project id is null") None)
  else
    '(project, err) ← Projects.Get c (types.Value (Id data));
    match err with
    | Some e => mret (resource.mkResponse (diag.AddError diags "Client Error" e) None)
    | None =>
        p ← deref project;
        mret (resource.mkResponse diags
                (Some {| Id := types.known (Project_Id p);
                         Name := types.known (Project_DisplayName p);
                         Organization := types.known (Project_OrganizationId p);
                         StudioHost := types.known (Project_StudioHost p);
                         ExternalStudioHost :=
                           types.known (index (Project_Metadata p) "externalStudioHost");
                         IsDisabledByUser := types.known (Project_IsDisabledByUser p);
                         ActivityFeedEnabled :=
                           types.known (Project_ActivityFeedEnabled p) |}))
    end.

End ProjectDataSource.

(** *** [SanityProvider] *)
Module SanityProvider.

Record SanityProviderModel : Type := mkModel { Token : types.String }.

(** [resp.DataSourceData] and [resp.ResourceData] are [nil] until
    [Configure] assigns them. *)
Record ConfigureResponse : Type := mkConfigureResponse {
  Diagnostics : diag.Diagnostics;
  DataSourceData : option sanity.Client;
  ResourceData : option sanity.Client
}.

(** [Configure] under the environment [env] of the process. *)
Definition Configure (env : gmap string string)
  (config : tfsdk.Source SanityProviderModel) : ConfigureResponse :=
  let cfg := tfsdk.Get_model config in
  let diags := diag.Append [] (tfsdk.Get_diags config) in
  if diag.HasError diags then mkConfigureResponse diags None None
  else if types.Unknown (Token cfg) then
    mkConfigureResponse
      (diag.AddWarning diags "Unable to create client"
         "Cannot use unknown value as token") None None
  else
    let token :=
      if types.Null (Token cfg) then os.Getenv env "SANITY_TOKEN"
      else types.Value (Token cfg) in
    if String.eqb token EmptyString then
      mkConfigureResponse
        (diag.AddError diags "Unable to find token" "Token cannot be an empty string")
        None None
    else
      let tokenSrc := sanity.mkHttpClient token in
      let client := sanity.NewClient tokenSrc in
      mkConfigureResponse diags (Some client) (Some client).

End SanityProvider.

(* ===================================================================== *)
(** ** Sample services and models *)
(* ===================================================================== *)

(** Concrete backends and models on which the operations are evaluated. *)
Module Samples.
Import sanity.

Definition blog : Project :=
  {| Project_Id := "p1";
     Project_DisplayName := "My blog";
     Project_OrganizationId := "org1";
     Project_StudioHost := "my-cool-blog";
     Project_Metadata := {[ "color" := "#0000ff" ]};
     Project_IsDisabledByUser := false;
     Project_ActivityFeedEnabled := true |}.

Definition entryA : CORSEntry := mkCORSEntry 1 "https://a" true.
Definition entryB : CORSEntry := mkCORSEntry 2 "https://b" false.

(** A service on which every call succeeds: project [blog], the two
    CORS entries, one dataset. *)
Definition healthy : Backend :=
  {| onCreate := fun _ _ => (Some blog, None);
     onGet := fun _ _ => (Some blog, None);
     onUpdate := fun _ _ _ => (Some blog, None);
     onDelete := fun _ _ => None;
     onListCORSEntries := fun _ _ => ([entryA; entryB], None);
     onCreateCORSEntry := fun _ _ _ => (Some (mkCORSEntry 17 "https://example.com" true), None);
     onDeleteCORSEntry := fun _ _ _ => None;
     onListDatasets := fun _ _ => ([mkDataset "production" "public"], None);
     onCreateDataset := fun _ _ r =>
       (Some (mkDataset (CreateDatasetRequest_Name r) "private"), None);
     onDeleteDataset := fun _ _ _ => None |}.

(** The same service with one method replaced. *)
Definition withListCORSEntries
  (f : list Call -> string -> list CORSEntry * option error) (b : Backend) : Backend :=
  {| onCreate := onCreate b; onGet := onGet b; onUpdate := onUpdate b;
     onDelete := onDelete b; onListCORSEntries := f;
     onCreateCORSEntry := onCreateCORSEntry b;
     onDeleteCORSEntry := onDeleteCORSEntry b;
     onListDatasets := onListDatasets b; onCreateDataset := onCreateDataset b;
     onDeleteDataset := onDeleteDataset b |}.

Definition withUpdate
  (f : list Call -> string -> UpdateProjectRequest -> option Project * option error)
  (b : Backend) : Backend :=
  {| onCreate := onCreate b; onGet := onGet b; onUpdate := f;
     onDelete := onDelete b; onListCORSEntries := onListCORSEntries b;
     onCreateCORSEntry := onCreateCORSEntry b;
     onDeleteCORSEntry := onDeleteCORSEntry b;
     onListDatasets := onListDatasets b; onCreateDataset := onCreateDataset b;
     onDeleteDataset := onDeleteDataset b |}.

Definition withDeleteCORSEntry
  (f : list Call -> string -> Z -> option error) (b : Backend) : Backend :=
  {| onCreate := onCreate b; onGet := onGet b; onUpdate := onUpdate b;
     onDelete := onDelete b; onListCORSEntries := onListCORSEntries b;
     onCreateCORSEntry := onCreateCORSEntry b;
     onDeleteCORSEntry := f;
     onListDatasets := onListDatasets b; onCreateDataset := onCreateDataset b;
     onDeleteDataset := onDeleteDataset b |}.

(** Listing the CORS entries fails. *)
Definition listFails : Backend :=
  withListCORSEntries (fun _ _ => ([], Some "502 Bad Gateway")) healthy.

(** Deleting the entry of id 2 fails. *)
Definition entryDeleteFails : Backend :=
  withDeleteCORSEntry
    (fun _ _ id => if id =? 2 then Some "409 Conflict" else None) healthy.


(** The update fails and still reports a project. *)
Definition updateFailsWithProject : Backend :=
  withUpdate (fun _ _ _ => (Some blog, Some "500 Internal Server Error")) healthy.

Definition nullString : types.String := types.null EmptyString.
Definition nullBool : types.Bool := types.null false.

(** The plan of a project with a name and an organization only. *)
Definition projectPlan : ProjectResource.ProjectResourceModel :=
  {| ProjectResource.Id := types.unknown EmptyString;
     ProjectResource.Name := types.known "My blog";
     ProjectResource.Organization := types.known "org1";
     ProjectResource.StudioHost := nullString;
     ProjectResource.ExternalStudioHost := nullString;
     ProjectResource.Color := nullString;
     ProjectResource.IsDisabledByUser := nullBool;
     ProjectResource.ActivityFeedEnabled := nullBool |}.

(** The plan of an update of project [p1] that sets a studio host. *)
Definition projectUpdatePlan : ProjectResource.ProjectResourceModel :=
  {| ProjectResource.Id := types.known "p1";
     ProjectResource.Name := types.known "My blog";
     ProjectResource.Organization := types.known "org1";
     ProjectResource.StudioHost := types.known "my-cool-blog";
     ProjectResource.ExternalStudioHost := nullString;
     ProjectResource.Color := nullString;
     ProjectResource.IsDisabledByUser := types.known false;
     ProjectResource.ActivityFeedEnabled := types.known true |}.

Definition corsPlan : CORSOriginResource.CORSOriginResourceModel :=
  {| CORSOriginResource.Id := types.unknown EmptyString;
     CORSOriginResource.Origin := types.known "https://example.com";
     CORSOriginResource.AllowCredentials := types.known true;
     CORSOriginResource.Project := types.known "p1" |}.

(** The stored state of a CORS origin of project [p1] with the given id. *)
Definition corsState (id : string) : CORSOriginResource.CORSOriginResourceModel :=
  {| CORSOriginResource.Id := types.known id;
     CORSOriginResource.Origin := types.known "https://stale";
     CORSOriginResource.AllowCredentials := types.known true;
     CORSOriginResource.Project := types.known "p1" |}.

Definition datasetPlan : DatasetResource.DatasetResourceModel :=
  {| DatasetResource.Project := types.known "p1";
     DatasetResource.Name := types.known "production";
     DatasetResource.AclMode := types.known "public" |}.

(** A stored dataset whose project is null. *)
Definition datasetNoProject : DatasetResource.DatasetResourceModel :=
  {| DatasetResource.Project := nullString;
     DatasetResource.Name := types.known "production";
     DatasetResource.AclMode := types.known "public" |}.

(** A stored dataset whose name is null. *)
Definition datasetNoName : DatasetResource.DatasetResourceModel :=
  {| DatasetResource.Project := types.known "p1";
     DatasetResource.Name := nullString;
     DatasetResource.AclMode := types.known "public" |}.

(** One rendering of the scan errors, to evaluate the operations. *)
Definition sampleErrorText : ErrorText := fun e =>
  match e with
  | fmt.ErrEOF => "unexpected EOF"
  | fmt.ErrUnexpectedNewline => "unexpected newline"
  | fmt.ErrExpectedInteger => "expected integer"
  | fmt.ErrSyntax tok => "parsing " +:+ tok +:+ ": invalid syntax"
  | fmt.ErrRange tok => "parsing " +:+ tok +:+ ": value out of range"
  end.

(** The plan of a project with a name and an organization only, after
    the plan modifiers of the schema put in the two defaults. *)
Definition projectPlanWithDefaults : ProjectResource.ProjectResourceModel :=
  {| ProjectResource.Id := types.unknown EmptyString;
     ProjectResource.Name := types.known "My blog";
     ProjectResource.Organization := types.known "org1";
     ProjectResource.StudioHost := nullString;
     ProjectResource.ExternalStudioHost := nullString;
     ProjectResource.Color := nullString;
     ProjectResource.IsDisabledByUser :=
       attribute_plan_modifier.Modify ProjectResource.disabled_by_user_modifier
         nullBool (types.unknown false);
     ProjectResource.ActivityFeedEnabled :=
       attribute_plan_modifier.Modify ProjectResource.activity_feed_enabled_modifier
         nullBool (types.unknown false) |}.

(** The plan of a CORS origin that says nothing on credentials. *)
Definition corsPlanNoFlag : CORSOriginResource.CORSOriginResourceModel :=
  {| CORSOriginResource.Id := types.unknown EmptyString;
     CORSOriginResource.Origin := types.known "https://example.com";
     CORSOriginResource.AllowCredentials := nullBool;
     CORSOriginResource.Project := types.known "p1" |}.

(** The state that [Create] writes for [corsPlan] on the healthy service. *)
Definition corsCreated : CORSOriginResource.CORSOriginResourceModel :=
  {| CORSOriginResource.Id := types.known "17";
     CORSOriginResource.Origin := types.known "https://example.com";
     CORSOriginResource.AllowCredentials := types.known true;
     CORSOriginResource.Project := types.known "p1" |}.

(** The healthy service once the created entry is listed too. *)
Definition listsCreated : Backend :=
  withListCORSEntries
    (fun _ _ => ([entryA; entryB; mkCORSEntry 17 "https://example.com" true], None))
    healthy.

(** A stored dataset whose acl mode is out of date. *)
Definition datasetStale : DatasetResource.DatasetResourceModel :=
  {| DatasetResource.Project := types.known "p1";
     DatasetResource.Name := types.known "production";
     DatasetResource.AclMode := types.known "private" |}.

(** A plan that names project [p1], plans a studio host and leaves every
    other attribute null. *)
Definition projectIdOnly : ProjectResource.ProjectResourceModel :=
  {| ProjectResource.Id := types.known "p1";
     ProjectResource.Name := nullString;
     ProjectResource.Organization := nullString;
     ProjectResource.StudioHost := types.known "another-host";
     ProjectResource.ExternalStudioHost := nullString;
     ProjectResource.Color := nullString;
     ProjectResource.IsDisabledByUser := nullBool;
     ProjectResource.ActivityFeedEnabled := nullBool |}.

End Samples.

(* ===================================================================== *)
(** * Properties *)
(* ===================================================================== *)

(** ** Decimal printing and scanning *)

Section Decimal.
Import fmt.

Lemma code_byte_digit (d : Z) : 0 <= d < 10 -> code (byte (48 + d)) = 48 + d.
Proof.
  intros Hd.
  assert (d = 0 \/ d = 1 \/ d = 2 \/ d = 3 \/ d = 4 \/ d = 5 \/ d = 6 \/ d = 7
          \/ d = 8 \/ d = 9) as Hcases by lia.
  repeat (destruct Hcases as [-> | Hcases]; [reflexivity |]).
  subst d. reflexivity.
Qed.

Lemma isDigit_byte (d : Z) : 0 <= d < 10 -> isDigit (byte (48 + d)) = true.
Proof.
  intros Hd. unfold isDigit. rewrite code_byte_digit by assumption.
  apply andb_true_intro. split; apply Z.leb_le; lia.
Qed.

Lemma isDigitOrUnderscore_byte (d : Z) :
  0 <= d < 10 -> isDigitOrUnderscore (byte (48 + d)) = true.
Proof.
  intros Hd. unfold isDigitOrUnderscore. now rewrite isDigit_byte.
Qed.

(** A string that starts with a printable ASCII byte has no leading
    space to skip. *)
Lemma SkipSpace_printable (c : ascii) (r : string) :
  33 <= code c <= 126 -> SkipSpace (String c r) = inr (String c r).
Proof.
  intros Hc. cbn [SkipSpace].
  replace (code c =? 10) with false by (symmetry; apply Z.eqb_neq; lia).
  replace (isSpaceByte c) with false.
  2:{ unfold isSpaceByte.
      replace (code c =? 9) with false by (symmetry; apply Z.eqb_neq; lia).
      replace (code c =? 32) with false by (symmetry; apply Z.eqb_neq; lia).
      replace (code c <=? 13) with false by (symmetry; apply Z.leb_gt; lia).
      now rewrite andb_false_r. }
  destruct r as [| c2 r2]; [reflexivity |].
  replace (isSpace2 c c2) with false.
  2:{ unfold isSpace2.
      now replace (code c =? 194) with false by (symmetry; apply Z.eqb_neq; lia). }
  destruct r2 as [| c3 r3]; [reflexivity |].
  replace (isSpace3 c c2 c3) with false; [reflexivity |].
  unfold isSpace3.
  replace (code c =? 225) with false by (symmetry; apply Z.eqb_neq; lia).
  replace (code c =? 226) with false by (symmetry; apply Z.eqb_neq; lia).
  replace (code c =? 227) with false by (symmetry; apply Z.eqb_neq; lia).
  reflexivity.
Qed.

(** The digits that [formatBits] writes are all accepted by the scanner. *)
Lemma acceptDigits_formatBits (fuel : nat) :
  forall (u : Z) (acc : string),
    0 <= u ->
    acceptDigits acc = (acc, EmptyString) ->
    acceptDigits (formatBits fuel u acc) = (formatBits fuel u acc, EmptyString).
Proof.
  induction fuel as [| fuel IH]; intros u acc Hu Hacc; [exact Hacc |].
  cbn [formatBits]. destruct (u <? 10) eqn:Hlt.
  - apply Z.ltb_lt in Hlt. cbn [acceptDigits].
    rewrite isDigitOrUnderscore_byte by lia. now rewrite Hacc.
  - apply Z.ltb_ge in Hlt. apply IH.
    + apply Z.div_pos; lia.
    + cbn [acceptDigits].
      rewrite isDigitOrUnderscore_byte by (apply Z.mod_pos_bound; lia).
      now rewrite Hacc.
Qed.

(** [formatBits] starts with a digit. *)
Lemma formatBits_head (fuel : nat) :
  forall (u : Z) (acc : string),
    0 <= u ->
    exists (d : Z) (r : string),
      0 <= d < 10 /\ formatBits (S fuel) u acc = String (byte (48 + d)) r.
Proof.
  induction fuel as [| fuel IH]; intros u acc Hu.
  - cbn [formatBits]. destruct (u <? 10) eqn:Hlt.
    + apply Z.ltb_lt in Hlt. exists u, acc. split; [lia | reflexivity].
    + exists (u mod 10), acc. split; [apply Z.mod_pos_bound; lia | reflexivity].
  - change (formatBits (S (S fuel)) u acc)
      with (if u <? 10 then String (byte (48 + u)) acc
            else formatBits (S fuel) (u / 10) (String (byte (48 + u mod 10)) acc)).
    destruct (u <? 10) eqn:Hlt.
    + apply Z.ltb_lt in Hlt. exists u, acc. split; [lia | reflexivity].
    + apply IH. apply Z.div_pos; lia.
Qed.

(** Scanning the digits of [u] from the accumulator [n] shifts [n] by
    the number of digits and adds [u], as long as the total fits. *)
Lemma parseUintLoop_formatBits (tok : string) (fuel : nat) :
  forall (u : Z) (acc : string),
    0 <= u < 10 ^ Z.of_nat fuel ->
    exists k : nat,
      forall n : Z,
        0 <= n ->
        n * 10 ^ Z.of_nat k + u <= uint64_max ->
        parseUintLoop tok (formatBits fuel u acc) n
        = parseUintLoop tok acc (n * 10 ^ Z.of_nat k + u).
Proof.
  assert (Hmax : uint64_max = 18446744073709551615) by reflexivity.
  induction fuel as [| fuel IH]; intros u acc Hu.
  - exists O. intros n Hn _. cbn [formatBits].
    change (10 ^ Z.of_nat 0) with 1 in *. f_equal. lia.
  - rewrite Nat2Z.inj_succ, Z.pow_succ_r in Hu by lia.
    cbn [formatBits]. destruct (u <? 10) eqn:Hlt.
    + apply Z.ltb_lt in Hlt. exists 1%nat. intros n Hn Hfit.
      change (10 ^ Z.of_nat 1) with 10 in *.
      cbn [parseUintLoop]. rewrite isDigit_byte by lia. cbn [negb].
      rewrite code_byte_digit by lia.
      replace (uint64_max / 10 + 1 <=? n) with false
        by (symmetry; apply Z.leb_gt; rewrite Hmax in *;
            change (18446744073709551615 / 10) with 1844674407370955161; lia).
      replace (uint64_max <? n * 10 + (48 + u - 48)) with false
        by (symmetry; apply Z.ltb_ge; lia).
      f_equal. lia.
    + apply Z.ltb_ge in Hlt.
      pose proof (Z.div_mod u 10 ltac:(lia)) as Hdm.
      pose proof (Z.mod_pos_bound u 10 ltac:(lia)) as Hmod.
      destruct (IH (u / 10) (String (byte (48 + u mod 10)) acc)) as [k Hk].
      { split; [apply Z.div_pos; lia | apply Z.div_lt_upper_bound; lia]. }
      exists (S k). intros n Hn Hfit.
      rewrite Nat2Z.inj_succ, Z.pow_succ_r in * by lia.
      assert (0 <= 10 ^ Z.of_nat k) by (apply Z.pow_nonneg; lia).
      rewrite Hk by nia.
      cbn [parseUintLoop]. rewrite isDigit_byte by lia. cbn [negb].
      rewrite code_byte_digit by lia.
      replace (uint64_max / 10 + 1 <=? n * 10 ^ Z.of_nat k + u / 10) with false
        by (symmetry; apply Z.leb_gt; rewrite Hmax in *;
            change (18446744073709551615 / 10) with 1844674407370955161; nia).
      replace (uint64_max <? (n * 10 ^ Z.of_nat k + u / 10) * 10 + (48 + u mod 10 - 48))
        with false by (symmetry; apply Z.ltb_ge; nia).
      f_equal. nia.
Qed.

Lemma ParseUint_formatBits (tok : string) (u : Z) :
  0 <= u <= uint64_max ->
  ParseUint tok (formatBits 20 u EmptyString) = inr u.
Proof.
  intros Hu.
  assert (Hmax : uint64_max = 18446744073709551615) by reflexivity.
  destruct (formatBits_head 19 u EmptyString) as (d & r & Hd & Hhead); [lia |].
  unfold ParseUint. rewrite Hhead, <- Hhead.
  destruct (parseUintLoop_formatBits tok 20 u EmptyString) as [k Hk].
  { change (10 ^ Z.of_nat 20) with 100000000000000000000. lia. }
  rewrite Hk by lia. cbn [parseUintLoop]. f_equal; lia.
Qed.

(** The scan of [%d] undoes the print of [%d] on every [int64]. *)
Lemma Sscanf_d_Sprintf_d (v : Z) : is_int64 v -> Sscanf_d (Sprintf_d v) = inr v.
Proof.
  unfold is_int64. intros Hv.
  assert (Hmin : int64_min = -9223372036854775808) by reflexivity.
  assert (Hmx : int64_max = 9223372036854775807) by reflexivity.
  assert (Hmax : uint64_max = 18446744073709551615) by reflexivity.
  assert (Hp : 2 ^ 63 = 9223372036854775808) by reflexivity.
  unfold Sprintf_d. destruct (v <? 0) eqn:Hneg.
  - apply Z.ltb_lt in Hneg.
    pose proof (ParseUint_formatBits
                  (String "-"%char (formatBits 20 (- v) EmptyString)) (- v)
                  ltac:(lia)) as Hparse.
    pose proof (acceptDigits_formatBits 20 (- v) EmptyString ltac:(lia) eq_refl)
      as Hacc.
    destruct (formatBits_head 19 (- v) EmptyString) as (d & r & Hd & Hhead); [lia |].
    unfold Sscanf_d. rewrite SkipSpace_printable by (vm_compute; split; discriminate).
    change (acceptSign (String "-"%char (formatBits 20 (- v) EmptyString)))
      with (String "-"%char EmptyString, formatBits 20 (- v) EmptyString).
    cbv iota beta. rewrite Hacc.
    rewrite Hhead at 1. rewrite isDigitOrUnderscore_byte by lia. cbn [negb].
    change (String "-"%char EmptyString +:+ formatBits 20 (- v) EmptyString)
      with (String "-"%char (formatBits 20 (- v) EmptyString)).
    unfold ParseInt.
    change (code "-"%char =? 45) with true.
    change (code "-"%char =? 43) with false.
    cbv iota beta. cbn [orb andb negb]. rewrite Hparse.
    replace (2 ^ 63 <? - v) with false by (symmetry; apply Z.ltb_ge; lia).
    f_equal. lia.
  - apply Z.ltb_ge in Hneg.
    pose proof (acceptDigits_formatBits 20 v EmptyString ltac:(lia) eq_refl) as Hacc.
    destruct (formatBits_head 19 v EmptyString) as (d & r & Hd & Hhead); [lia |].
    pose proof (ParseUint_formatBits (formatBits 20 v EmptyString) v ltac:(lia))
      as Hparse.
    pose proof (code_byte_digit d Hd) as Hcode.
    unfold Sscanf_d. rewrite Hhead in *.
    rewrite SkipSpace_printable by lia.
    unfold acceptSign.
    replace (code (byte (48 + d)) =? 43) with false by (symmetry; apply Z.eqb_neq; lia).
    replace (code (byte (48 + d)) =? 45) with false by (symmetry; apply Z.eqb_neq; lia).
    cbn [orb]. rewrite isDigitOrUnderscore_byte by lia. cbn [negb].
    rewrite Hacc.
    change (EmptyString +:+ String (byte (48 + d)) r) with (String (byte (48 + d)) r).
    unfold ParseInt.
    replace (code (byte (48 + d)) =? 43) with false by (symmetry; apply Z.eqb_neq; lia).
    replace (code (byte (48 + d)) =? 45) with false by (symmetry; apply Z.eqb_neq; lia).
    cbn [orb andb negb]. rewrite Hparse.
    replace (2 ^ 63 <=? v) with false by (symmetry; apply Z.leb_gt; lia).
    reflexivity.
Qed.

End Decimal.

Example Sprintf_d_42 : fmt.Sprintf_d 42 = "42".
Proof. reflexivity. Qed.

Example Sprintf_d_neg : fmt.Sprintf_d (-907) = "-907".
Proof. reflexivity. Qed.

Example Sprintf_d_min : fmt.Sprintf_d fmt.int64_min = "-9223372036854775808".
Proof. vm_compute. reflexivity. Qed.

Example Sscanf_d_99 : fmt.Sscanf_d "99" = inr 99.
Proof. vm_compute. reflexivity. Qed.

Example Sscanf_d_trailing : fmt.Sscanf_d "  -12abc" = inr (-12).
Proof. vm_compute. reflexivity. Qed.

Example Sscanf_d_underscore : fmt.Sscanf_d "1_0" = inl (fmt.ErrSyntax "1_0").
Proof. vm_compute. reflexivity. Qed.

Example Sscanf_d_overflow :
  fmt.Sscanf_d "9223372036854775808" = inl (fmt.ErrRange "9223372036854775808").
Proof. vm_compute. reflexivity. Qed.

Example Sscanf_d_min : fmt.Sscanf_d "-9223372036854775808" = inr fmt.int64_min.
Proof. vm_compute. reflexivity. Qed.

Example Sscanf_d_empty : fmt.Sscanf_d "" = inl fmt.ErrEOF.
Proof. reflexivity. Qed.

Example Sscanf_d_word : fmt.Sscanf_d "abc" = inl fmt.ErrExpectedInteger.
Proof. vm_compute. reflexivity. Qed.

(** ** Running an operation *)

Lemma diag_Append_nil (ds : diag.Diagnostics) : diag.Append ds [] = ds.
Proof. reflexivity. Qed.

Lemma diag_HasError_Append1_warning (ds : diag.Diagnostics) (summary detail : string) :
  diag.HasError ds = false ->
  diag.HasError (diag.AddWarning ds summary detail) = false.
Proof.
  intros Hds. unfold diag.AddWarning, diag.Append1.
  destruct (bool_decide _); [exact Hds |].
  unfold diag.HasError in *. rewrite existsb_app, Hds. reflexivity.
Qed.

Lemma diag_AddError_fresh (summary detail : string) :
  diag.AddError [] summary detail
  = [diag.mkDiagnostic diag.SeverityError summary detail].
Proof. reflexivity. Qed.

(** Unfolds the monad of operations down to the answers of the backend. *)
Ltac run_op :=
  unfold calls, result, run;
  cbv beta delta [mbind mret Op_bind Op_ret deref
    Projects.Create Projects.Get Projects.Update Projects.Delete
    Projects.ListCORSEntries Projects.CreateCORSEntry Projects.DeleteCORSEntry
    Projects.ListDatasets Projects.CreateDataset Projects.DeleteDataset];
  cbn [app fst snd negb].

(* ===================================================================== *)
(** ** The provider: resolving the token *)
(* ===================================================================== *)

Section Provider.
Import SanityProvider.

(** C3. [Configure] resolves the token in the order configured value,
    environment variable, error.  For a configuration that decodes
    without an error: an unknown token attribute adds a warning and
    publishes no client; otherwise the token is [SANITY_TOKEN] of the
    environment when the attribute is null and the configured value when
    it is not; an empty resolved token adds the token-empty error and
    publishes no client; any other token gives a client built from it,
    published as data-source data and as resource data. *)
Theorem Configure_token_precedence
  (env : gmap string string) (config : tfsdk.Source SanityProviderModel) :
  let cfg := tfsdk.Get_model config in
  let diags := diag.Append [] (tfsdk.Get_diags config) in
  let token :=
    if types.Null (Token cfg) then default EmptyString (env !! "SANITY_TOKEN")
    else types.Value (Token cfg) in
  let built := sanity.NewClient (sanity.mkHttpClient token) in
  diag.HasError diags = false ->
  (types.Unknown (Token cfg) = true ->
   Configure env config
   = mkConfigureResponse
       (diag.Append1 diags
          (diag.mkDiagnostic diag.SeverityWarning "Unable to create client"
             "Cannot use unknown value as token")) None None)
  /\ (types.Unknown (Token cfg) = false -> token = EmptyString ->
      Configure env config
      = mkConfigureResponse
          (diag.Append1 diags
             (diag.mkDiagnostic diag.SeverityError "Unable to find token"
                "Token cannot be an empty string")) None None)
  /\ (types.Unknown (Token cfg) = false -> token <> EmptyString ->
      Configure env config = mkConfigureResponse diags (Some built) (Some built)
      /\ sanity.AccessToken (sanity.httpClient built) = token).
Proof.
  intros cfg diags token built Hdec. unfold Configure.
  fold cfg. fold diags. rewrite Hdec.
  split; [| split].
  - intros ->. reflexivity.
  - intros -> Htok. unfold os.Getenv. fold token. rewrite Htok. reflexivity.
  - intros -> Htok. unfold os.Getenv. fold token. split; [| reflexivity].
    destruct (String.eqb token EmptyString) eqn:Heq; [| reflexivity].
    apply String.eqb_eq in Heq. contradiction.
Qed.

Lemma Configure_token_precedence_witness :
  Configure {[ "SANITY_TOKEN" := "abc123" ]}
    (tfsdk.clean (mkModel (types.null EmptyString)))
  = mkConfigureResponse []
      (Some (sanity.NewClient (sanity.mkHttpClient "abc123")))
      (Some (sanity.NewClient (sanity.mkHttpClient "abc123"))).
Proof.
  destruct (Configure_token_precedence {[ "SANITY_TOKEN" := "abc123" ]}
              (tfsdk.clean (mkModel (types.null EmptyString))) eq_refl)
    as (_ & _ & Hbuilt).
  apply Hbuilt; [reflexivity | vm_compute; discriminate].
Defined.

(** Neither a configured token nor the environment variable: the
    token-empty error. *)
Example Configure_no_token :
  Configure ∅ (tfsdk.clean (mkModel (types.null EmptyString)))
  = mkConfigureResponse
      [diag.mkDiagnostic diag.SeverityError "Unable to find token"
         "Token cannot be an empty string"] None None.
Proof. reflexivity. Qed.

(** A configured token wins over the environment. *)
Example Configure_configured_token :
  Configure {[ "SANITY_TOKEN" := "abc123" ]}
    (tfsdk.clean (mkModel (types.known "xxx")))
  = mkConfigureResponse []
      (Some (sanity.NewClient (sanity.mkHttpClient "xxx")))
      (Some (sanity.NewClient (sanity.mkHttpClient "xxx"))).
Proof. reflexivity. Qed.

Example Configure_unknown_token :
  Configure {[ "SANITY_TOKEN" := "abc123" ]}
    (tfsdk.clean (mkModel (types.unknown EmptyString)))
  = mkConfigureResponse
      [diag.mkDiagnostic diag.SeverityWarning "Unable to create client"
         "Cannot use unknown value as token"] None None.
Proof. reflexivity. Qed.

End Provider.

(* ===================================================================== *)
(** ** Updates that are not supported *)
(* ===================================================================== *)

Section UnsupportedUpdate.

(** C5, as amended.  Whatever the plan and whatever the service would
    answer, [Update] of a CORS origin and [Update] of a dataset issue no
    call, write no state and add exactly one error diagnostic; its text
    is "Update is not supported on CORS entry" for the CORS origin and
    "Update is not supported on dataset" for the dataset. *)
Theorem Update_not_supported
  (corsPlan : tfsdk.Source CORSOriginResource.CORSOriginResourceModel)
  (datasetPlan : tfsdk.Source DatasetResource.DatasetResourceModel) :
  (result (CORSOriginResource.Update corsPlan)
   = Returned
       (resource.mkResponse
          [diag.mkDiagnostic diag.SeverityError "Provider Error"
             "Update is not supported on CORS entry"] None)
   /\ calls (CORSOriginResource.Update corsPlan) = [])
  /\ (result (DatasetResource.Update datasetPlan)
      = Returned
          (resource.mkResponse
             [diag.mkDiagnostic diag.SeverityError "Provider Error"
                "Update is not supported on dataset"] None)
      /\ calls (DatasetResource.Update datasetPlan) = []).
Proof. repeat split. Qed.

(** C5, as stated, fails on the text of the CORS origin: the diagnostic
    of the update does not read "Update is not supported on cors entry". *)
Lemma Update_cors_text_counterexample :
  ~ (exists d : diag.Diagnostic,
        result (CORSOriginResource.Update (tfsdk.clean Samples.corsPlan))
        = Returned (resource.mkResponse [d] None)
        /\ diag.isError d = true
        /\ diag.Detail d = "Update is not supported on cors entry").
Proof.
  intros (d & Hres & _ & Htext).
  vm_compute in Hres. injection Hres as <-. discriminate Htext.
Qed.

End UnsupportedUpdate.

(* ===================================================================== *)
(** ** The dataset resource *)
(* ===================================================================== *)

Section Dataset.
Import DatasetResource.
Variable c : sanity.Backend.

(** C10. When the plan decodes without an error and the create call
    succeeds, [Create] issues that one call and writes the planned model
    to the state as it is: project, name and acl mode of the state are
    those of the plan, whatever dataset the service sent back. *)
Theorem Create_writes_plan_verbatim (plan : tfsdk.Source DatasetResourceModel) :
  let data := tfsdk.Get_model plan in
  let diags := diag.Append [] (tfsdk.Get_diags plan) in
  let request :=
    sanity.mkCreateDatasetRequest (types.Value (Name data)) (types.Value (AclMode data)) in
  diag.HasError diags = false ->
  snd (sanity.onCreateDataset c [] (types.Value (Project data)) request) = None ->
  calls (Create c plan) = [sanity.CallCreateDataset (types.Value (Project data)) request]
  /\ exists st : DatasetResourceModel,
      result (Create c plan) = Returned (resource.mkResponse diags (Some st))
      /\ Project st = Project data
      /\ Name st = Name data
      /\ AclMode st = AclMode data.
Proof.
  intros data diags request Hdec Hok. unfold Create. fold data. fold diags.
  rewrite Hdec. fold request. run_op.
  destruct (sanity.onCreateDataset c [] (types.Value (Project data)) request)
    as [reply err].
  cbn [snd] in Hok. subst err. cbn.
  split; [reflexivity |]. exists data. repeat split.
Qed.

(** [Read] has no test of a null project or name: with a state that
    decodes, it goes straight to the listing call, under the [Value] of
    the project attribute. *)
Theorem Read_lists_without_null_test (state : tfsdk.Source DatasetResourceModel) :
  let data := tfsdk.Get_model state in
  diag.HasError (diag.Append [] (tfsdk.Get_diags state)) = false ->
  calls (Read c state) = [sanity.CallListDatasets (types.Value (Project data))].
Proof.
  intros data Hdec. unfold Read. fold data. rewrite Hdec. run_op.
  destruct (sanity.onListDatasets c [] (types.Value (Project data))) as [datasets [e |]];
    [reflexivity |].
  destruct (find _ datasets); reflexivity.
Qed.

(** [Delete], next to it, does test both attributes before its call. *)
Lemma Delete_null_guard (state : tfsdk.Source DatasetResourceModel) :
  let data := tfsdk.Get_model state in
  let diags := diag.Append [] (tfsdk.Get_diags state) in
  diag.HasError diags = false ->
  (types.Null (Name data) = true ->
   calls (Delete c state) = []
   /\ result (Delete c state)
      = Returned (resource.mkResponse
                    (diag.AddError diags "Name is null" "Name is null") None))
  /\ (types.Null (Name data) = false -> types.Null (Project data) = true ->
      calls (Delete c state) = []
      /\ result (Delete c state)
         = Returned (resource.mkResponse
                       (diag.AddError diags "Project is null" "Project is null") None)).
Proof.
  intros data diags Hdec. unfold Delete. fold data. fold diags. rewrite Hdec.
  split.
  - intros ->. split; reflexivity.
  - intros -> ->. split; reflexivity.
Qed.

End Dataset.

Lemma Create_writes_plan_verbatim_witness :
  result (DatasetResource.Create Samples.healthy (tfsdk.clean Samples.datasetPlan))
  = Returned (resource.mkResponse [] (Some Samples.datasetPlan))
  /\ sanity.onCreateDataset Samples.healthy [] "p1"
       (sanity.mkCreateDatasetRequest "production" "public")
     = (Some (sanity.mkDataset "production" "private"), None).
Proof.
  split; [| reflexivity].
  destruct (Create_writes_plan_verbatim Samples.healthy
              (tfsdk.clean Samples.datasetPlan) eq_refl eq_refl)
    as (_ & st & Hres & Hp & Hn & Ha).
  rewrite Hres. destruct st. cbn in Hp, Hn, Ha. subst. reflexivity.
Defined.

Lemma Read_lists_without_null_test_witness :
  types.Null (DatasetResource.Project Samples.datasetNoProject) = true
  /\ calls (DatasetResource.Read Samples.healthy (tfsdk.clean Samples.datasetNoProject))
     = [sanity.CallListDatasets ""].
Proof.
  split; [reflexivity |].
  apply (Read_lists_without_null_test Samples.healthy
           (tfsdk.clean Samples.datasetNoProject)).
  reflexivity.
Defined.

(** On the healthy service the read of a dataset without a project even
    succeeds; the delete of the same state stops at its guard. *)
Example Read_null_project_succeeds :
  result (DatasetResource.Read Samples.healthy (tfsdk.clean Samples.datasetNoProject))
  = Returned (resource.mkResponse [] (Some Samples.datasetNoProject)).
Proof. reflexivity. Qed.

Example Read_null_name_calls :
  calls (DatasetResource.Read Samples.healthy (tfsdk.clean Samples.datasetNoName))
  = [sanity.CallListDatasets "p1"]
  /\ result (DatasetResource.Read Samples.healthy (tfsdk.clean Samples.datasetNoName))
     = Returned (resource.mkResponse
                   [diag.mkDiagnostic diag.SeverityError "dataset not found"
                      "dataset not found"] None).
Proof. split; reflexivity. Qed.

Example Delete_null_project_stops :
  run (DatasetResource.Delete Samples.healthy (tfsdk.clean Samples.datasetNoProject))
  = (Returned (resource.mkResponse
                 [diag.mkDiagnostic diag.SeverityError "Project is null"
                    "Project is null"] None), []).
Proof. reflexivity. Qed.

(** *** Import of a dataset *)

Section DatasetImport.
Import strings.

Lemma Split_nonempty (s : string) (sep : ascii) : Split s sep <> [].
Proof.
  induction s as [| ch r IH]; cbn [Split]; [discriminate |].
  destruct (Ascii.eqb ch sep); [discriminate |].
  destruct (Split r sep); [contradiction | discriminate].
Qed.

(** One piece more than there are separators. *)
Lemma Split_length (s : string) (sep : ascii) :
  length (Split s sep) = S (Count s sep).
Proof.
  induction s as [| ch r IH]; cbn [Split Count]; [reflexivity |].
  destruct (Ascii.eqb ch sep).
  - cbn [length]. now rewrite IH.
  - pose proof (Split_nonempty r sep) as Hne.
    destruct (Split r sep) as [| p ps]; [contradiction |]. exact IH.
Qed.

Lemma Split_no_separator (s : string) (sep : ascii) :
  Count s sep = O -> Split s sep = [s].
Proof.
  induction s as [| ch r IH]; cbn [Split Count]; [reflexivity |].
  destruct (Ascii.eqb ch sep); [discriminate |].
  intros Hc. now rewrite IH.
Qed.

Lemma Split_single_piece (s p : string) (sep : ascii) :
  Split s sep = [p] -> p = s /\ Count s sep = O.
Proof.
  intros Hs. pose proof (Split_length s sep) as Hlen. rewrite Hs in Hlen.
  cbn [length] in Hlen. assert (Hc : Count s sep = O) by congruence.
  rewrite (Split_no_separator s sep Hc) in Hs. split; congruence.
Qed.

(** Two pieces are the two sides of the only separator. *)
Lemma Split_two_pieces (s a b : string) (sep : ascii) :
  Split s sep = [a; b]
  <-> s = a +:+ String sep b /\ Count a sep = O /\ Count b sep = O.
Proof.
  revert a. induction s as [| ch r IH]; intros a; cbn [Split].
  - split; [discriminate |]. intros (Hs & _). destruct a; discriminate.
  - destruct (Ascii.eqb ch sep) eqn:Hch.
    + apply Ascii.eqb_eq in Hch. subst ch. split.
      * intros Hs. injection Hs as <- Hr.
        apply Split_single_piece in Hr as (-> & Hc). repeat split; assumption.
      * intros (Hs & Ha & Hb). destruct a as [| ch' a'].
        -- cbn in Hs. injection Hs as ->. now rewrite Split_no_separator.
        -- cbn in Hs. injection Hs as <- _. cbn [Count] in Ha.
           rewrite Ascii.eqb_refl in Ha. discriminate.
    + pose proof (Split_nonempty r sep) as Hne.
      destruct (Split r sep) as [| p ps] eqn:Hr; [contradiction |]. split.
      * intros Hs. injection Hs as <- ->.
        destruct (proj1 (IH p) eq_refl) as (-> & Hp & Hb).
        repeat split; [| assumption]. cbn [Count]. now rewrite Hch.
      * intros (Hs & Ha & Hb). destruct a as [| ch' a'].
        -- cbn in Hs. injection Hs as -> _. rewrite Ascii.eqb_refl in Hch.
           discriminate.
        -- cbn in Hs. injection Hs as <- ->. cbn [Count] in Ha. rewrite Hch in Ha.
           pose proof (proj2 (IH a') (conj eq_refl (conj Ha Hb))) as Hab.
           injection Hab as -> ->. reflexivity.
Qed.

End DatasetImport.

(** C8. [ImportState] of a dataset splits the identifier on "/".  Exactly
    two pieces set [project] to the first and [name] to the second and add
    no diagnostic; any other number of pieces adds the input-format error
    and sets nothing.  Two pieces means exactly one separator in the
    identifier, the pieces being what stands before and after it.  So
    "proj123/production" gives project "proj123" and name "production",
    and "proj123" fails. *)
Theorem ImportState_two_parts :
  (forall ID : string,
      (forall project name : string,
          strings.Split ID "/"%char = [project; name] ->
          DatasetResource.ImportState ID
          = resource.mkImportStateResponse []
              (<["name" := name]> (<["project" := project]> ∅)))
      /\ (length (strings.Split ID "/"%char) <> 2%nat ->
          DatasetResource.ImportState ID
          = resource.mkImportStateResponse
              [diag.mkDiagnostic diag.SeverityError "Input Error"
                 "The import identifier for a dataset should be in the form project-id/dataset-name"]
              ∅)
      /\ (length (strings.Split ID "/"%char) = 2%nat
          <-> strings.Count ID "/"%char = 1%nat)
      /\ (forall project name : string,
             strings.Split ID "/"%char = [project; name]
             <-> ID = project +:+ "/" +:+ name
                 /\ strings.Count project "/"%char = O
                 /\ strings.Count name "/"%char = O))
  /\ DatasetResource.ImportState "proj123/production"
     = resource.mkImportStateResponse []
         (<["name" := "production"]> (<["project" := "proj123"]> ∅))
  /\ DatasetResource.ImportState "proj123"
     = resource.mkImportStateResponse
         [diag.mkDiagnostic diag.SeverityError "Input Error"
            "The import identifier for a dataset should be in the form project-id/dataset-name"]
         ∅.
Proof.
  split; [| split; reflexivity].
  intros ID. split; [| split; [| split]].
  - intros project name Hs. unfold DatasetResource.ImportState. rewrite Hs. reflexivity.
  - intros Hlen. unfold DatasetResource.ImportState.
    destruct (strings.Split ID "/"%char) as [| p1 [| p2 [| p3 ps]]]; try reflexivity.
    now contradiction Hlen.
  - rewrite Split_length. lia.
  - intros project name. apply Split_two_pieces.
Qed.

Example ImportState_three_parts :
  DatasetResource.ImportState "proj123/production/extra"
  = resource.mkImportStateResponse
      [diag.mkDiagnostic diag.SeverityError "Input Error"
         "The import identifier for a dataset should be in the form project-id/dataset-name"]
      ∅.
Proof. reflexivity. Qed.

Example Split_empty : strings.Split "" "/"%char = [""].
Proof. reflexivity. Qed.

Example Split_trailing : strings.Split "a/b/" "/"%char = ["a"; "b"; ""].
Proof. reflexivity. Qed.

(* ===================================================================== *)
(** ** The project resource *)
(* ===================================================================== *)

Section Project.
Import sanity ProjectResource.
Variable c : Backend.

(** The loop over the listed entries deletes them in order.  It either
    runs to its end, or stops at the first delete that fails, and then
    the last call it issued is the compensating delete of the project. *)
Lemma purgeEntries_outcome (diags : diag.Diagnostics) (projectId : string)
  (entries : list CORSEntry) :
  forall log : list Call,
    match purgeEntries c diags projectId entries log with
    | (Returned None, log') =>
        log' = (log ++ map (fun e => CallDeleteCORSEntry projectId (CORSEntry_Id e))
                         entries)%list
    | (Returned (Some resp), log') =>
        exists (done : list CORSEntry) (e : error),
          log' = (log ++ map (fun e => CallDeleteCORSEntry projectId (CORSEntry_Id e))
                           done ++ [CallDelete projectId])%list
          /\ resp = resource.mkResponse (diag.AddError diags "Client Error" e) None
    | (Panicked, _) => False
    end.
Proof.
  induction entries as [| entry rest IH]; intros log.
  - cbn. now rewrite app_nil_r.
  - cbn [purgeEntries]. run_op.
    destruct (onDeleteCORSEntry c log projectId (CORSEntry_Id entry)) as [e |].
    + exists [entry], e. split; [| reflexivity]. cbn. now rewrite <- app_assoc.
    + specialize (IH (log ++ [CallDeleteCORSEntry projectId (CORSEntry_Id entry)])%list).
      destruct (purgeEntries c diags projectId rest _) as [[[resp |] |] log'].
      * destruct IH as (done & e & -> & ->). exists (entry :: done), e.
        split; [| reflexivity]. cbn. now rewrite <- !app_assoc.
      * subst log'. cbn. now rewrite <- app_assoc.
      * exact IH.
Qed.

(** C1, on the failing path.  When the project was created and the
    listing of its CORS entries fails, [Create] adds the error and
    returns: the calls it issued are the create and the listing, and no
    delete of the project follows. *)
Theorem Create_list_failure_no_compensation
  (plan : tfsdk.Source ProjectResourceModel)
  (p : Project) (entries : list CORSEntry) (e : error) :
  let data := tfsdk.Get_model plan in
  let diags := diag.Append [] (tfsdk.Get_diags plan) in
  let request :=
    mkCreateProjectRequest (types.Value (Name data)) (types.Value (Organization data)) in
  diag.HasError diags = false ->
  onCreate c [] request = (Some p, None) ->
  onListCORSEntries c [CallCreate request] (Project_Id p) = (entries, Some e) ->
  run (Create c plan)
  = (Returned (resource.mkResponse (diag.AddError diags "Client Error" e) None),
     [CallCreate request; CallListCORSEntries (Project_Id p)]).
Proof.
  intros data diags request Hdec Hcreate Hlist.
  unfold Create. fold data. fold diags. rewrite Hdec. fold request. run_op.
  rewrite Hcreate. cbn. rewrite Hlist. reflexivity.
Qed.

(** The sibling path: when a delete of an entry fails, the last call of
    [Create] is the delete of the project it created. *)
Lemma Create_entry_delete_failure_compensates
  (plan : tfsdk.Source ProjectResourceModel)
  (p : Project) (entries : list CORSEntry) (failed : CORSEntry) (e : error) :
  let data := tfsdk.Get_model plan in
  let diags := diag.Append [] (tfsdk.Get_diags plan) in
  let request :=
    mkCreateProjectRequest (types.Value (Name data)) (types.Value (Organization data)) in
  let log := [CallCreate request; CallListCORSEntries (Project_Id p)] in
  diag.HasError diags = false ->
  onCreate c [] request = (Some p, None) ->
  onListCORSEntries c [CallCreate request] (Project_Id p)
  = (failed :: entries, None) ->
  onDeleteCORSEntry c log (Project_Id p) (CORSEntry_Id failed) = Some e ->
  run (Create c plan)
  = (Returned (resource.mkResponse (diag.AddError diags "Client Error" e) None),
     (log ++ [CallDeleteCORSEntry (Project_Id p) (CORSEntry_Id failed);
              CallDelete (Project_Id p)])%list).
Proof.
  intros data diags request log Hdec Hcreate Hlist Hdel.
  unfold Create. fold data. fold diags. rewrite Hdec. fold request. run_op.
  rewrite Hcreate. cbn. rewrite Hlist. cbn [purgeEntries]. run_op.
  fold log. rewrite Hdel. reflexivity.
Qed.


(** When the failed update does report a project, the delete goes to
    that project and the error becomes a diagnostic. *)
Lemma Update_failure_with_project_compensates
  (plan : tfsdk.Source ProjectResourceModel) (studioHost : string)
  (p : Project) (e : error) :
  let data := tfsdk.Get_model plan in
  let diags := diag.Append [] (tfsdk.Get_diags plan) in
  diag.HasError diags = false ->
  types.Null (Id data) = false ->
  requiresUpdate data studioHost = true ->
  onUpdate c [] (types.Value (Id data)) (updateRequest data studioHost)
  = (Some p, Some e) ->
  run (Update c plan studioHost)
  = (Returned (resource.mkResponse (diag.AddError diags "Client Error" e) None),
     [CallUpdate (types.Value (Id data)) (updateRequest data studioHost);
      CallDelete (Project_Id p)]).
Proof.
  intros data diags Hdec Hid Hreq Hupd.
  unfold Update. fold data. fold diags. rewrite Hdec, Hid, Hreq. run_op.
  rewrite Hupd. reflexivity.
Qed.

(** The calls of [Update]: none, or the update followed by at most the
    compensating delete. *)
Lemma Update_calls (plan : tfsdk.Source ProjectResourceModel) (studioHost : string) :
  let data := tfsdk.Get_model plan in
  let call := CallUpdate (types.Value (Id data)) (updateRequest data studioHost) in
  calls (Update c plan studioHost) = []
  \/ calls (Update c plan studioHost) = [call]
  \/ exists id : string, calls (Update c plan studioHost) = [call; CallDelete id].
Proof.
  intros data call. unfold Update. fold data.
  destruct (diag.HasError _); [now left |].
  destruct (types.Null (Id data)); [now left |].
  destruct (requiresUpdate data studioHost); [| now left].
  run_op. fold call.
  destruct (onUpdate c [] (types.Value (Id data)) (updateRequest data studioHost))
    as [[p |] [e |]]; cbn; eauto.
Qed.

(** C4. Every update request that [Update] sends carries the planned
    studio host when the prior studio host is empty and the planned one
    is not null, and an unassigned (empty) studio-host field otherwise;
    in particular the field stays unassigned whenever the prior studio
    host is not empty, whatever the plan says.  And when the prior one is
    empty and the planned one is not null (plan decoded, id not null),
    the request is sent. *)
Theorem Update_studio_host_field
  (plan : tfsdk.Source ProjectResourceModel) (studioHost : string) :
  let data := tfsdk.Get_model plan in
  (forall (id : string) (r : UpdateProjectRequest),
      In (CallUpdate id r) (calls (Update c plan studioHost)) ->
      (studioHost = EmptyString -> types.Null (StudioHost data) = false ->
       UpdateProjectRequest_StudioHost r = types.Value (StudioHost data))
      /\ (studioHost = EmptyString -> types.Null (StudioHost data) = true ->
          UpdateProjectRequest_StudioHost r = EmptyString)
      /\ (studioHost <> EmptyString ->
          UpdateProjectRequest_StudioHost r = EmptyString))
  /\ (diag.HasError (diag.Append [] (tfsdk.Get_diags plan)) = false ->
      types.Null (Id data) = false ->
      studioHost = EmptyString -> types.Null (StudioHost data) = false ->
      exists r : UpdateProjectRequest,
        head (calls (Update c plan studioHost))
        = Some (CallUpdate (types.Value (Id data)) r)
        /\ UpdateProjectRequest_StudioHost r = types.Value (StudioHost data)).
Proof.
  intros data. split.
  - intros id r Hin.
    assert (Hr : r = updateRequest data studioHost).
    { destruct (Update_calls plan studioHost) as [Hc | [Hc | [id' Hc]]];
        fold data in Hc; rewrite Hc in Hin; cbn in Hin.
      - contradiction.
      - destruct Hin as [Heq | []]. now injection Heq.
      - destruct Hin as [Heq | [Heq | []]]; [now injection Heq | discriminate]. }
    subst r. cbn [updateRequest UpdateProjectRequest_StudioHost].
    split; [| split].
    + intros -> ->. reflexivity.
    + intros -> ->. reflexivity.
    + intros Hne. destruct (String.eqb studioHost EmptyString) eqn:Heq; [| reflexivity].
      apply String.eqb_eq in Heq. contradiction.
  - intros Hdec Hid -> Hsh. exists (updateRequest data EmptyString). split.
    + unfold Update. fold data. rewrite Hdec, Hid.
      assert (Hreq : requiresUpdate data EmptyString = true).
      { unfold requiresUpdate. rewrite Hsh. cbn.
        now rewrite orb_true_r. }
      rewrite Hreq. run_op.
      destruct (onUpdate c [] (types.Value (Id data)) (updateRequest data EmptyString))
        as [[p |] [e |]]; reflexivity.
    + cbn [updateRequest UpdateProjectRequest_StudioHost]. now rewrite Hsh.
Qed.

End Project.

Lemma Create_list_failure_no_compensation_witness :
  run (ProjectResource.Create Samples.listFails (tfsdk.clean Samples.projectPlan))
  = (Returned (resource.mkResponse
                 [diag.mkDiagnostic diag.SeverityError "Client Error" "502 Bad Gateway"]
                 None),
     [sanity.CallCreate (sanity.mkCreateProjectRequest "My blog" "org1");
      sanity.CallListCORSEntries "p1"]).
Proof.
  apply (Create_list_failure_no_compensation Samples.listFails
           (tfsdk.clean Samples.projectPlan) Samples.blog [] "502 Bad Gateway");
    reflexivity.
Defined.

(** The purge on the service whose delete of entry 2 fails: entry 1 is
    deleted, the delete of entry 2 fails, the project is deleted. *)
Example Create_entry_delete_failure_run :
  run (ProjectResource.Create Samples.entryDeleteFails (tfsdk.clean Samples.projectPlan))
  = (Returned (resource.mkResponse
                 [diag.mkDiagnostic diag.SeverityError "Client Error" "409 Conflict"]
                 None),
     [sanity.CallCreate (sanity.mkCreateProjectRequest "My blog" "org1");
      sanity.CallListCORSEntries "p1";
      sanity.CallDeleteCORSEntry "p1" 1;
      sanity.CallDeleteCORSEntry "p1" 2;
      sanity.CallDelete "p1"]).
Proof. reflexivity. Qed.


Example Update_failure_with_project_run :
  run (ProjectResource.Update Samples.updateFailsWithProject
         (tfsdk.clean Samples.projectUpdatePlan) "")
  = (Returned (resource.mkResponse
                 [diag.mkDiagnostic diag.SeverityError "Client Error"
                    "500 Internal Server Error"] None),
     [sanity.CallUpdate "p1"
        (sanity.mkUpdateProjectRequest "My blog" "my-cool-blog" "" ""
           (Some false) (Some true));
      sanity.CallDelete "p1"]).
Proof. reflexivity. Qed.

Lemma Update_studio_host_field_witness :
  exists r : sanity.UpdateProjectRequest,
    head (calls (ProjectResource.Update Samples.healthy
                   (tfsdk.clean Samples.projectUpdatePlan) ""))
    = Some (sanity.CallUpdate "p1" r)
    /\ sanity.UpdateProjectRequest_StudioHost r = "my-cool-blog".
Proof.
  apply (Update_studio_host_field Samples.healthy
           (tfsdk.clean Samples.projectUpdatePlan) ""); reflexivity.
Defined.

(** A prior studio host keeps the planned one out of the request. *)
Example Update_studio_host_excluded :
  calls (ProjectResource.Update Samples.healthy
           (tfsdk.clean Samples.projectUpdatePlan) "old-host")
  = [sanity.CallUpdate "p1"
       (sanity.mkUpdateProjectRequest "My blog" "" "" "" (Some false) (Some true))].
Proof. reflexivity. Qed.

(* ===================================================================== *)
(** ** The CORS origin resource *)
(* ===================================================================== *)

(** The linear scan: the first element that satisfies the test. *)
Lemma find_first {A : Type} (f : A -> bool) (before after : list A) (x : A) :
  (forall y : A, In y before -> f y = false) ->
  f x = true ->
  find f (before ++ x :: after) = Some x.
Proof.
  intros Hbefore Hx. induction before as [| y before IH]; cbn [app find].
  - now rewrite Hx.
  - rewrite (Hbefore y (or_introl eq_refl)). apply IH.
    intros z Hz. apply Hbefore. now right.
Qed.


Section CORS.
Import sanity CORSOriginResource.
Variable c : Backend.
Context {errorText : ErrorText}.


(** C9. The id that [Create] writes to the state is the decimal print
    of the entry's [int64] id, and the scan of [Read] and [Delete] gives
    that integer back.  So on a state written by [Create] neither of them
    takes its scan-failure branch: [Delete] goes on to its delete call
    with the entry's id, and [Read] ends at the null-project guard, at
    the error of the listing or at the search for the entry's id. *)
Theorem Create_id_scans_back
  (plan : tfsdk.Source CORSOriginResourceModel) (entry : CORSEntry) :
  let data := tfsdk.Get_model plan in
  let diags := diag.Append [] (tfsdk.Get_diags plan) in
  diag.HasError diags = false ->
  onCreateCORSEntry c [] (types.Value (Project data)) (createRequest data)
  = (Some entry, None) ->
  fmt.is_int64 (CORSEntry_Id entry) ->
  exists st : CORSOriginResourceModel,
    result (Create c plan) = Returned (resource.mkResponse diags (Some st))
    /\ Id st = types.known (fmt.Sprintf_d (CORSEntry_Id entry))
    /\ Project st = Project data
    /\ fmt.Sscanf_d (types.Value (Id st)) = inr (CORSEntry_Id entry)
    /\ forall c' : Backend,
        (types.Null (Project data) = true ->
         run (Read c' (tfsdk.clean st))
         = (Returned (resource.mkResponse
                        (diag.AddError [] "Project is null" "Project is null") None), [])
         /\ run (Delete c' (tfsdk.clean st))
            = (Returned (resource.mkResponse
                           (diag.AddError [] "Project is null" "Project is null") None),
               []))
        /\ (types.Null (Project data) = false ->
            calls (Delete c' (tfsdk.clean st))
            = [CallDeleteCORSEntry (types.Value (Project data)) (CORSEntry_Id entry)]
            /\ (forall (entries : list CORSEntry) (e : error),
                   onListCORSEntries c' [] (types.Value (Project data))
                   = (entries, Some e) ->
                   result (Read c' (tfsdk.clean st))
                   = Returned (resource.mkResponse
                                 (diag.AddError [] "Client Error" e) None))
            /\ (forall entries : list CORSEntry,
                   onListCORSEntries c' [] (types.Value (Project data))
                   = (entries, None) ->
                   result (Read c' (tfsdk.clean st))
                   = Returned
                       match find (fun e => CORSEntry_Id e =? CORSEntry_Id entry)
                               entries with
                       | None =>
                           resource.mkResponse
                             (diag.AddError [] "cors entry not found"
                                "cors entry not found") None
                       | Some found =>
                           resource.mkResponse []
                             (Some {| Id := Id st;
                                      Origin := types.known (CORSEntry_Origin found);
                                      AllowCredentials :=
                                        types.known (CORSEntry_AllowCredentials found);
                                      Project := Project data |})
                       end)).
Proof.
  intros data diags Hdec Hcreate Hrange.
  pose proof (Sscanf_d_Sprintf_d (CORSEntry_Id entry) Hrange) as Hscan.
  eexists. split; [| split; [| split; [| split]]].
  - unfold Create. fold data. fold diags. rewrite Hdec.
    fold (createRequest data). run_op. rewrite Hcreate. reflexivity.
  - reflexivity.
  - reflexivity.
  - exact Hscan.
  - intros c'. split.
    + intros Hnull. unfold Read, Delete. cbn. rewrite Hnull. split; reflexivity.
    + intros Hnull. split; [| split].
      * unfold Delete. cbn. rewrite Hnull, Hscan. run_op.
        destruct (onDeleteCORSEntry c' [] _ _); reflexivity.
      * intros entries e Hlist. unfold Read. cbn. rewrite Hnull. run_op.
        rewrite Hlist. reflexivity.
      * intros entries Hlist. unfold Read. cbn. rewrite Hnull. run_op.
        rewrite Hlist, Hscan.
        destruct (find _ entries); reflexivity.
Qed.

End CORS.


Example Read_id_99_not_found :
  run (CORSOriginResource.Read (errorText := Samples.sampleErrorText) Samples.healthy
         (tfsdk.clean (Samples.corsState "99")))
  = (Returned (resource.mkResponse
                 [diag.mkDiagnostic diag.SeverityError "cors entry not found"
                    "cors entry not found"] None),
     [sanity.CallListCORSEntries "p1"]).
Proof. vm_compute. reflexivity. Qed.

Example Read_id_unparsable :
  run (CORSOriginResource.Read (errorText := Samples.sampleErrorText) Samples.healthy
         (tfsdk.clean (Samples.corsState "two")))
  = (Returned (resource.mkResponse
                 [diag.mkDiagnostic diag.SeverityError "Client Error" "expected integer"]
                 None),
     [sanity.CallListCORSEntries "p1"]).
Proof. vm_compute. reflexivity. Qed.

Lemma Create_id_scans_back_witness :
  fmt.is_int64 17
  /\ exists st : CORSOriginResource.CORSOriginResourceModel,
      result (CORSOriginResource.Create Samples.healthy (tfsdk.clean Samples.corsPlan))
      = Returned (resource.mkResponse [] (Some st))
      /\ CORSOriginResource.Id st = types.known "17"
      /\ fmt.Sscanf_d (types.Value (CORSOriginResource.Id st)) = inr 17.
Proof.
  assert (Hrange : fmt.is_int64 17) by (vm_compute; split; discriminate).
  split; [exact Hrange |].
  destruct (Create_id_scans_back Samples.healthy (errorText := Samples.sampleErrorText)
              (tfsdk.clean Samples.corsPlan)
              (sanity.mkCORSEntry 17 "https://example.com" true)
              eq_refl eq_refl Hrange)
    as (st & Hres & Hid & _ & Hscan & _).
  exists st. repeat split; assumption.
Defined.

(** The extreme ids go through the state and back. *)
Example Sscanf_d_Sprintf_d_extremes :
  fmt.Sscanf_d (fmt.Sprintf_d fmt.int64_min) = inr fmt.int64_min
  /\ fmt.Sscanf_d (fmt.Sprintf_d fmt.int64_max) = inr fmt.int64_max
  /\ fmt.Sscanf_d (fmt.Sprintf_d 0) = inr 0.
Proof. vm_compute. repeat split. Qed.

(* ===================================================================== *)
(** * Further properties of the provider *)
(* ===================================================================== *)

(** ** Diagnostics *)

Lemma diag_Append1_nonempty (ds : diag.Diagnostics) (d : diag.Diagnostic) :
  diag.Append1 ds d <> [].
Proof.
  unfold diag.Append1. destruct (bool_decide (d ∈ ds)) eqn:Hin.
  - apply bool_decide_eq_true in Hin. intros ->. inversion Hin.
  - destruct ds; discriminate.
Qed.

Lemma diag_HasError_AddError (ds : diag.Diagnostics) (summary detail : string) :
  diag.HasError (diag.AddError ds summary detail) = true.
Proof.
  unfold diag.AddError, diag.Append1, diag.HasError.
  destruct (bool_decide _) eqn:Hin.
  - apply bool_decide_eq_true in Hin. apply existsb_exists.
    exists (diag.mkDiagnostic diag.SeverityError summary detail).
    split; [now apply list_elem_of_In | reflexivity].
  - rewrite existsb_app. cbn. apply orb_true_r.
Qed.

Lemma diag_HasError_nonempty (ds : diag.Diagnostics) :
  diag.HasError ds = true -> ds <> [].
Proof. intros Herr ->. discriminate. Qed.

(** ** Configuring the provider and its resources *)

Section ConfigureMore.
Import SanityProvider.

(** What [Configure] publishes.  The data-source data and the resource
    data are always the same; a published client has a token that is not
    empty, and comes with no error diagnostic; and when no client is
    published the response holds at least one diagnostic that says why. *)
Theorem Configure_published_client
  (env : gmap string string) (config : tfsdk.Source SanityProviderModel) :
  let resp := Configure env config in
  DataSourceData resp = ResourceData resp
  /\ (forall client : sanity.Client,
         ResourceData resp = Some client ->
         sanity.AccessToken (sanity.httpClient client) <> EmptyString
         /\ diag.HasError (Diagnostics resp) = false
         /\ types.Unknown (Token (tfsdk.Get_model config)) = false)
  /\ (ResourceData resp = None -> Diagnostics resp <> []).
Proof.
  cbv zeta. unfold Configure.
  destruct (diag.HasError (diag.Append [] (tfsdk.Get_diags config))) eqn:Hdec.
  { cbn. split; [reflexivity |]. split; [discriminate |].
    intros _. now apply diag_HasError_nonempty. }
  destruct (types.Unknown (Token (tfsdk.Get_model config))) eqn:Hunknown.
  { cbn. split; [reflexivity |]. split; [discriminate |].
    intros _. apply diag_Append1_nonempty. }
  set (token := if types.Null (Token (tfsdk.Get_model config))
                then os.Getenv env "SANITY_TOKEN"
                else types.Value (Token (tfsdk.Get_model config))).
  destruct (String.eqb token EmptyString) eqn:Htoken.
  { cbn. split; [reflexivity |]. split; [discriminate |].
    intros _. apply diag_Append1_nonempty. }
  cbn. split; [reflexivity |]. split; [| discriminate].
  intros client [= <-]. cbn. split; [| split; [assumption | reflexivity]].
  now apply String.eqb_neq.
Qed.

(** Where the token comes from.  A token attribute that is not null makes
    the environment irrelevant (an explicitly empty token is not replaced
    by [SANITY_TOKEN]); a null one makes every variable but
    [SANITY_TOKEN] irrelevant. *)
Theorem Configure_token_source
  (env env' : gmap string string) (config : tfsdk.Source SanityProviderModel) :
  (types.Null (Token (tfsdk.Get_model config)) = false ->
   Configure env config = Configure env' config)
  /\ (env !! "SANITY_TOKEN" = env' !! "SANITY_TOKEN" ->
      Configure env config = Configure env' config).
Proof.
  unfold Configure, os.Getenv. split.
  - intros ->. reflexivity.
  - intros ->. reflexivity.
Qed.

(** An explicitly empty token next to a set [SANITY_TOKEN]: the error. *)
Example Configure_empty_configured_token :
  Configure {[ "SANITY_TOKEN" := "abc123" ]} (tfsdk.clean (mkModel (types.known "")))
  = mkConfigureResponse
      [diag.mkDiagnostic diag.SeverityError "Unable to find token"
         "Token cannot be an empty string"] None None.
Proof. reflexivity. Qed.


End ConfigureMore.

Lemma Configure_published_client_witness :
  sanity.AccessToken (sanity.httpClient (sanity.NewClient (sanity.mkHttpClient "xxx")))
  <> EmptyString.
Proof.
  destruct (Configure_published_client ∅
              (tfsdk.clean (SanityProvider.mkModel (types.known "xxx"))))
    as (_ & Hclient & _).
  apply (Hclient (sanity.NewClient (sanity.mkHttpClient "xxx")) eq_refl).
Defined.

(** ** The project resource: what [Create] does *)

Section ProjectCreate.
Import sanity ProjectResource.
Variable c : Backend.

(** On a service that deletes every entry, the loop runs to its end. *)
Lemma purgeEntries_all_deleted (diags : diag.Diagnostics) (projectId : string)
  (entries : list CORSEntry) :
  (forall (log : list Call) (id : Z), onDeleteCORSEntry c log projectId id = None) ->
  forall log : list Call,
    purgeEntries c diags projectId entries log
    = (Returned None, (log ++ deletions projectId entries)%list).
Proof.
  intros Hdelete. induction entries as [| entry rest IH]; intros log.
  - cbn. now rewrite app_nil_r.
  - cbn [purgeEntries]. run_op. rewrite Hdelete, IH. cbn. now rewrite <- app_assoc.
Qed.

(** Every way in which [Create] can return. *)
Lemma Create_outcome (plan : tfsdk.Source ProjectResourceModel) :
  let data := tfsdk.Get_model plan in
  let diags := diag.Append [] (tfsdk.Get_diags plan) in
  let request :=
    mkCreateProjectRequest (types.Value (Name data)) (types.Value (Organization data)) in
  match run (Create c plan) with
  | (Panicked, _) => True
  | (Returned resp, log) =>
      (resource.State resp = None /\ diag.HasError (resource.Diagnostics resp) = true)
      \/ (diag.HasError diags = false
          /\ resource.Diagnostics resp = diags
          /\ exists (p : Project) (entries : list CORSEntry),
              onCreate c [] request = (Some p, None)
              /\ onListCORSEntries c [CallCreate request] (Project_Id p) = (entries, None)
              /\ let purged :=
                   ([CallCreate request; CallListCORSEntries (Project_Id p)]
                      ++ deletions (Project_Id p) entries)%list in
                 (log = purged /\ resource.State resp = Some (fromProject p))
                 \/ exists (r : UpdateProjectRequest) (p' : Project),
                     log = (purged ++ [CallUpdate (Project_Id p) r])%list
                     /\ onUpdate c purged (Project_Id p) r = (Some p', None)
                     /\ resource.State resp = Some (fromProject p'))
  end.
Proof.
  intros data diags request. unfold Create. fold data. fold diags. fold request.
  destruct (diag.HasError diags) eqn:Hdec.
  { cbn. left. split; [reflexivity | exact Hdec]. }
  run_op.
  destruct (onCreate c [] request) as [project [e |]] eqn:Hcreate.
  { left. cbn. split; [reflexivity | apply diag_HasError_AddError]. }
  destruct project as [p |]; [| exact I]. cbv beta iota.
  destruct (onListCORSEntries c [CallCreate request] (Project_Id p))
    as [entries [e |]] eqn:Hlist.
  { left. cbn. split; [reflexivity | apply diag_HasError_AddError]. }
  cbn [app].
  pose proof (purgeEntries_outcome c diags (Project_Id p) entries
                [CallCreate request; CallListCORSEntries (Project_Id p)]) as Hpurge.
  destruct (purgeEntries c diags (Project_Id p) entries
              [CallCreate request; CallListCORSEntries (Project_Id p)])
    as [[[resp |] |] log'].
  - destruct Hpurge as (done & e & _ & ->). cbv beta iota. left. cbn.
    split; [reflexivity | apply diag_HasError_AddError].
  - subst log'. fold (deletions (Project_Id p) entries). cbv beta iota.
    match goal with
    | |- context [if ?b then _ else _] => destruct b
    end.
    + match goal with
      | |- context [onUpdate c ?l ?i ?r] =>
          destruct (onUpdate c l i r) as [project' [e |]] eqn:Hupdate
      end.
      * destruct project' as [p' |]; [| exact I]. cbv beta iota. left. cbn.
        split; [reflexivity | apply diag_HasError_AddError].
      * destruct project' as [p' |]; [| exact I]. cbv beta iota. right. cbn.
        split; [reflexivity |]. split; [reflexivity |].
        exists p, entries. split; [first [exact Hcreate | reflexivity] |].
        split; [exact Hlist |].
        right. eexists _, p'. split; [reflexivity |]. split; [exact Hupdate | reflexivity].
    + cbv beta iota. right. cbn. split; [reflexivity |]. split; [reflexivity |].
      exists p, entries. split; [first [exact Hcreate | reflexivity] |].
        split; [exact Hlist |].
      left. split; reflexivity.
  - contradiction.
Qed.


(** The state of a resource is written only together with diagnostics
    that hold no error; [Create] and [Read] that return without a state
    have reported an error; [Delete] writes no state. *)
Theorem Project_state_only_without_error
  (source : tfsdk.Source ProjectResourceModel) (studioHost : string) :
  (forall resp : Response,
      result (Create c source) = Returned resp ->
      diag.HasError (resource.Diagnostics resp)
      = match resource.State resp with Some _ => false | None => true end)
  /\ (forall resp : Response,
         result (Read c source) = Returned resp ->
         diag.HasError (resource.Diagnostics resp)
         = match resource.State resp with Some _ => false | None => true end)
  /\ (forall (resp : Response) (st : ProjectResourceModel),
         result (Update c source studioHost) = Returned resp ->
         resource.State resp = Some st ->
         diag.HasError (resource.Diagnostics resp) = false)
  /\ (forall resp : Response,
         result (Delete c source) = Returned resp -> resource.State resp = None).
Proof.
  split; [| split; [| split]].
  - intros resp Hres. pose proof (Create_outcome source) as Hout. cbv zeta in Hout.
    unfold result in Hres. destruct (run (Create c source)) as [[resp' |] log];
      cbn in Hres; [| discriminate].
    injection Hres as ->.
    destruct Hout as [[-> Herr] | (Hdec & -> & p & entries & _ & _ & Hshape)];
      [exact Herr |].
    destruct Hshape as [(_ & ->) | (r & p' & _ & _ & ->)]; exact Hdec.
  - intros resp. unfold Read.
    destruct (diag.HasError (diag.Append [] (tfsdk.Get_diags source))) eqn:Hdec.
    { intros [= <-]. exact Hdec. }
    destruct (types.Null (Id (tfsdk.Get_model source))).
    { intros [= <-]. apply diag_HasError_AddError. }
    run_op.
    destruct (onGet c [] _) as [[p |] [e |]]; cbn; intros [= <-]; cbn;
      solve [apply diag_HasError_AddError | exact Hdec].
  - intros resp st. unfold Update.
    destruct (diag.HasError (diag.Append [] (tfsdk.Get_diags source))) eqn:Hdec.
    { intros [= <-]. discriminate. }
    destruct (types.Null (Id (tfsdk.Get_model source))).
    { intros [= <-]. discriminate. }
    destruct (requiresUpdate (tfsdk.Get_model source) studioHost).
    2:{ intros [= <-]. discriminate. }
    run_op.
    destruct (onUpdate c [] _ _) as [[p |] [e |]]; cbn; intros [= <-]; cbn;
      solve [discriminate | intros _; exact Hdec].
  - intros resp. unfold Delete.
    destruct (diag.HasError (diag.Append [] (tfsdk.Get_diags source))).
    { intros [= <-]. reflexivity. }
    destruct (types.Null (Id (tfsdk.Get_model source))).
    { intros [= <-]. reflexivity. }
    run_op. destruct (onDelete c [] _); intros [= <-]; reflexivity.
Qed.


(** A read right after a create.  The state that [Create] wrote is built
    from a project [p] of the service, its id is that project's id, and
    [Read] of that state asks for this id: whatever project the service
    then returns becomes the state, so a service that returns [p] again
    leaves the state as [Create] wrote it. *)
Theorem Read_after_Create
  (c' : Backend) (plan : tfsdk.Source ProjectResourceModel)
  (ds : diag.Diagnostics) (st : ProjectResourceModel) :
  result (Create c plan) = Returned (resource.mkResponse ds (Some st)) ->
  exists p : Project,
    st = fromProject p
    /\ calls (Read c' (tfsdk.clean st)) = [CallGet (Project_Id p)]
    /\ (forall q : Project,
           onGet c' [] (Project_Id p) = (Some q, None) ->
           result (Read c' (tfsdk.clean st))
           = Returned (resource.mkResponse [] (Some (fromProject q))))
    /\ (onGet c' [] (Project_Id p) = (Some p, None) ->
        result (Read c' (tfsdk.clean st)) = Returned (resource.mkResponse [] (Some st))).
Proof.
  intros Hres. pose proof (Create_outcome plan) as Hout. cbv zeta in Hout.
  unfold result in Hres. destruct (run (Create c plan)) as [[resp |] log];
    cbn in Hres; [| discriminate].
  injection Hres as ->. cbn [resource.State resource.Diagnostics] in Hout.
  destruct Hout as [[Hnone _] | (_ & _ & p0 & entries & _ & _ & Hshape)];
    [discriminate |].
  assert (Hst : exists p : Project, st = fromProject p).
  { destruct Hshape as [(_ & [= ->]) | (r & p' & _ & _ & [= ->])]; eauto. }
  destruct Hst as (p & ->). exists p. split; [reflexivity |].
  assert (Hread : forall q : Project,
             onGet c' [] (Project_Id p) = (Some q, None) ->
             result (Read c' (tfsdk.clean (fromProject p)))
             = Returned (resource.mkResponse [] (Some (fromProject q)))).
  { intros q Hget. unfold Read. cbn. run_op. rewrite Hget. reflexivity. }
  split; [| split].
  - unfold Read. cbn. run_op.
    destruct (onGet c' [] (Project_Id p)) as [[q |] [e |]]; reflexivity.
  - exact Hread.
  - apply Hread.
Qed.


(** The defaults of the schema make [Create] send an update.  When
    [disabled_by_user] and [activity_feed_enabled] of the plan come out of
    their plan modifiers with nothing configured, they are not null, so
    after the purge [Create] sends an update request, and that request
    carries [false] for the one and [true] for the other. *)
Theorem Create_defaults_force_update
  (plan : tfsdk.Source ProjectResourceModel)
  (p : Project) (entries : list CORSEntry)
  (configured planned : types.Bool) (configured' planned' : types.Bool) :
  let data := tfsdk.Get_model plan in
  let request :=
    mkCreateProjectRequest (types.Value (Name data)) (types.Value (Organization data)) in
  let purged :=
    ([CallCreate request; CallListCORSEntries (Project_Id p)]
       ++ deletions (Project_Id p) entries)%list in
  diag.HasError (diag.Append [] (tfsdk.Get_diags plan)) = false ->
  onCreate c [] request = (Some p, None) ->
  onListCORSEntries c [CallCreate request] (Project_Id p) = (entries, None) ->
  (forall (log : list Call) (id : Z), onDeleteCORSEntry c log (Project_Id p) id = None) ->
  IsDisabledByUser data
  = attribute_plan_modifier.Modify disabled_by_user_modifier configured planned ->
  ActivityFeedEnabled data
  = attribute_plan_modifier.Modify activity_feed_enabled_modifier configured' planned' ->
  types.IsNull configured = true ->
  types.IsNull configured' = true ->
  exists (r : UpdateProjectRequest) (rest : list Call),
    calls (Create c plan) = (purged ++ CallUpdate (Project_Id p) r :: rest)%list
    /\ UpdateProjectRequest_IsDisabledByUser r = Some false
    /\ UpdateProjectRequest_ActivityFeedEnabled r = Some true.
Proof.
  intros data request purged Hdec Hcreate Hlist Hdelete Hdisabled Hfeed Hnull Hnull'.
  unfold attribute_plan_modifier.Modify in Hdisabled, Hfeed.
  rewrite Hnull in Hdisabled. rewrite Hnull' in Hfeed. cbn in Hdisabled, Hfeed.
  unfold Create. fold data. fold request. rewrite Hdec. run_op.
  rewrite Hcreate. cbv beta iota. rewrite Hlist. cbn [app].
  rewrite (purgeEntries_all_deleted _ _ _ Hdelete). fold purged.
  rewrite Hdisabled, Hfeed. cbn [types.Null types.Value types.known negb].
  rewrite !orb_true_r. cbv beta iota.
  match goal with
  | |- context [onUpdate c purged ?i ?r] =>
      destruct (onUpdate c purged i r) as [[p' |] [e |]]
  end; cbv beta iota; cbn [fst snd]; rewrite <- ?app_assoc; cbn [app];
    eexists _, _; (split; [reflexivity | split; reflexivity]).
Qed.

End ProjectCreate.

Section ProjectCalls.
Import sanity ProjectResource.
Variable c : Backend.

(** [Read], [Update] and [Delete] reach the service only with a decoded
    source whose id is not null, and the id they pass is the [Value] of
    that attribute: a call of [Read] is the get of this id, a call of
    [Delete] is the delete of this id, and the first call of [Update] is
    the update of this id. *)
Theorem Project_calls_carry_stored_id
  (source : tfsdk.Source ProjectResourceModel) (studioHost : string) (call : Call) :
  let data := tfsdk.Get_model source in
  (In call (calls (Read c source)) ->
   call = CallGet (types.Value (Id data)) /\ types.Null (Id data) = false)
  /\ (In call (calls (Delete c source)) ->
      call = CallDelete (types.Value (Id data)) /\ types.Null (Id data) = false)
  /\ (head (calls (Update c source studioHost)) = Some call ->
      (exists r : UpdateProjectRequest, call = CallUpdate (types.Value (Id data)) r)
      /\ types.Null (Id data) = false).
Proof.
  intros data. split; [| split].
  - unfold Read. fold data. destruct (diag.HasError _); [intros [] |].
    destruct (types.Null (Id data)); [intros [] |]. run_op.
    destruct (onGet c [] _) as [[p |] [e |]]; cbn; intros [<- | []]; auto.
  - unfold Delete. fold data. destruct (diag.HasError _); [intros [] |].
    destruct (types.Null (Id data)); [intros [] |]. run_op.
    destruct (onDelete c [] _); cbn; intros [<- | []]; auto.
  - unfold Update. fold data. destruct (diag.HasError _); [discriminate |].
    destruct (types.Null (Id data)); [discriminate |].
    destruct (requiresUpdate data studioHost); [| discriminate]. run_op.
    destruct (onUpdate c [] _ _) as [[p |] [e |]]; cbn; intros [= <-]; eauto.
Qed.

(** [ImportState] of a project sets the [id] attribute, and nothing else,
    to the identifier it is given; [Read] of a state with that id asks the
    service for the same identifier. *)
Theorem ImportState_passes_id (ID : string) (st : ProjectResourceModel) :
  ImportState ID = resource.mkImportStateResponse [] {[ "id" := ID ]}
  /\ (Id st = types.known ID ->
      calls (Read c (tfsdk.clean st)) = [CallGet ID]).
Proof.
  split; [reflexivity |].
  intros Hid. unfold Read. cbn. rewrite Hid. cbn. run_op.
  destruct (onGet c [] ID) as [[p |] [e |]]; reflexivity.
Qed.

End ProjectCalls.


Lemma Read_after_Create_witness :
  result (ProjectResource.Read Samples.healthy
            (tfsdk.clean (ProjectResource.fromProject Samples.blog)))
  = Returned (resource.mkResponse [] (Some (ProjectResource.fromProject Samples.blog))).
Proof.
  destruct (Read_after_Create Samples.healthy Samples.healthy
              (tfsdk.clean Samples.projectPlan) []
              (ProjectResource.fromProject Samples.blog) eq_refl)
    as (p & Hst & _ & Hread & _).
  rewrite (Hread Samples.blog); [reflexivity |]. reflexivity.
Defined.


Lemma Create_defaults_force_update_witness :
  exists (r : sanity.UpdateProjectRequest) (rest : list sanity.Call),
    calls (ProjectResource.Create Samples.healthy
             (tfsdk.clean Samples.projectPlanWithDefaults))
    = ([sanity.CallCreate (sanity.mkCreateProjectRequest "My blog" "org1");
        sanity.CallListCORSEntries "p1";
        sanity.CallDeleteCORSEntry "p1" 1;
        sanity.CallDeleteCORSEntry "p1" 2]
         ++ sanity.CallUpdate "p1" r :: rest)%list
    /\ sanity.UpdateProjectRequest_IsDisabledByUser r = Some false
    /\ sanity.UpdateProjectRequest_ActivityFeedEnabled r = Some true.
Proof.
  apply (Create_defaults_force_update Samples.healthy
           (tfsdk.clean Samples.projectPlanWithDefaults) Samples.blog
           [Samples.entryA; Samples.entryB]
           Samples.nullBool (types.unknown false) Samples.nullBool (types.unknown false));
    reflexivity.
Defined.

(** ** The project data source *)

Section DataSource.
Import sanity.
Variable c : Backend.

(** The data source reads a project as the resource does.  From the same
    id and the same decoding diagnostics, both issue the same calls, both
    panic or both return, with the same diagnostics; and the state of the
    data source is the state of the resource without its color. *)
Theorem DataSource_Read_agrees_with_resource
  (config : tfsdk.Source ProjectDataSource.ProjectDataSourceModel)
  (state : tfsdk.Source ProjectResource.ProjectResourceModel) :
  let view (st : ProjectResource.ProjectResourceModel) :=
    {| ProjectDataSource.Id := ProjectResource.Id st;
       ProjectDataSource.Name := ProjectResource.Name st;
       ProjectDataSource.Organization := ProjectResource.Organization st;
       ProjectDataSource.StudioHost := ProjectResource.StudioHost st;
       ProjectDataSource.ExternalStudioHost := ProjectResource.ExternalStudioHost st;
       ProjectDataSource.IsDisabledByUser := ProjectResource.IsDisabledByUser st;
       ProjectDataSource.ActivityFeedEnabled := ProjectResource.ActivityFeedEnabled st |} in
  ProjectDataSource.Id (tfsdk.Get_model config)
  = ProjectResource.Id (tfsdk.Get_model state) ->
  tfsdk.Get_diags config = tfsdk.Get_diags state ->
  calls (ProjectDataSource.Read c config) = calls (ProjectResource.Read c state)
  /\ result (ProjectDataSource.Read c config)
     = match result (ProjectResource.Read c state) with
       | Returned resp =>
           Returned (resource.mkResponse (resource.Diagnostics resp)
                       (option_map view (resource.State resp)))
       | Panicked => Panicked
       end.
Proof.
  intros view Hid Hdiags.
  unfold ProjectDataSource.Read, ProjectResource.Read. rewrite Hid, Hdiags.
  destruct (diag.HasError _); [split; reflexivity |].
  destruct (types.Null _); [split; reflexivity |]. run_op.
  destruct (onGet c [] _) as [[p |] [e |]]; split; reflexivity.
Qed.

(** Without an id the data source stops before any call. *)
Lemma DataSource_Read_null_id
  (config : tfsdk.Source ProjectDataSource.ProjectDataSourceModel) :
  diag.HasError (diag.Append [] (tfsdk.Get_diags config)) = false ->
  types.Null (ProjectDataSource.Id (tfsdk.Get_model config)) = true ->
  run (ProjectDataSource.Read c config)
  = (Returned (resource.mkResponse
                 (diag.AddError (diag.Append [] (tfsdk.Get_diags config))
                    "Project id is null" "Project id is null") None), []).
Proof.
  intros Hdec Hnull. unfold ProjectDataSource.Read. now rewrite Hdec, Hnull.
Qed.

End DataSource.

Lemma DataSource_Read_agrees_with_resource_witness :
  result (ProjectDataSource.Read Samples.healthy
            (tfsdk.clean
               {| ProjectDataSource.Id := types.known "p1";
                  ProjectDataSource.Name := Samples.nullString;
                  ProjectDataSource.Organization := Samples.nullString;
                  ProjectDataSource.StudioHost := Samples.nullString;
                  ProjectDataSource.ExternalStudioHost := Samples.nullString;
                  ProjectDataSource.IsDisabledByUser := Samples.nullBool;
                  ProjectDataSource.ActivityFeedEnabled := Samples.nullBool |}))
  = Returned
      (resource.mkResponse []
         (Some {| ProjectDataSource.Id := types.known "p1";
                  ProjectDataSource.Name := types.known "My blog";
                  ProjectDataSource.Organization := types.known "org1";
                  ProjectDataSource.StudioHost := types.known "my-cool-blog";
                  ProjectDataSource.ExternalStudioHost := types.known "";
                  ProjectDataSource.IsDisabledByUser := types.known false;
                  ProjectDataSource.ActivityFeedEnabled := types.known true |})).
Proof.
  destruct (DataSource_Read_agrees_with_resource Samples.healthy
              (tfsdk.clean
                 {| ProjectDataSource.Id := types.known "p1";
                    ProjectDataSource.Name := Samples.nullString;
                    ProjectDataSource.Organization := Samples.nullString;
                    ProjectDataSource.StudioHost := Samples.nullString;
                    ProjectDataSource.ExternalStudioHost := Samples.nullString;
                    ProjectDataSource.IsDisabledByUser := Samples.nullBool;
                    ProjectDataSource.ActivityFeedEnabled := Samples.nullBool |})
              (tfsdk.clean Samples.projectUpdatePlan) eq_refl eq_refl)
    as (_ & Hresult).
  rewrite Hresult. reflexivity.
Defined.

(** ** The CORS origin resource: scanning, creating, importing *)

Section ScanRange.
Import fmt.





End ScanRange.

(** The first element that satisfies the test, when there is one. *)
Lemma find_split {A : Type} (f : A -> bool) (l : list A) (x : A) :
  find f l = Some x ->
  exists before after : list A,
    l = (before ++ x :: after)%list
    /\ f x = true
    /\ forall y : A, In y before -> f y = false.
Proof.
  induction l as [| y l IH]; cbn [find]; [discriminate |].
  destruct (f y) eqn:Hy.
  - intros [= ->]. exists [], l. repeat split; [assumption | intros z []].
  - intros Hfind. destruct (IH Hfind) as (before & after & -> & Hx & Hbefore).
    exists (y :: before), after. repeat split; [assumption |].
    intros z [<- | Hz]; [assumption | now apply Hbefore].
Qed.

(** With ids that are pairwise distinct, the scan for the id of a listed
    entry finds that entry. *)
Lemma find_by_unique_id (entries : list sanity.CORSEntry) (e : sanity.CORSEntry) :
  List.NoDup (map sanity.CORSEntry_Id entries) ->
  In e entries ->
  find (fun x => sanity.CORSEntry_Id x =? sanity.CORSEntry_Id e) entries = Some e.
Proof.
  induction entries as [| y entries IH]; intros Hnodup Hin; [destruct Hin |].
  cbn [map] in Hnodup. apply NoDup_cons_iff in Hnodup as [Hfresh Hnodup].
  cbn [find]. destruct Hin as [-> | Hin].
  - now rewrite Z.eqb_refl.
  - destruct (sanity.CORSEntry_Id y =? sanity.CORSEntry_Id e) eqn:Heq.
    + apply Z.eqb_eq in Heq. exfalso. apply Hfresh. rewrite Heq.
      now apply in_map.
    + now apply IH.
Qed.

Section CutFacts.
Import strings.

(** [Cut] splits at the first separator. *)
Lemma Cut_found (s before after : string) (sep : ascii) :
  Cut s sep = (before, after, true) ->
  s = before +:+ String sep after /\ Count before sep = O.
Proof.
  revert before. induction s as [| ch r IH]; intros before; cbn [Cut]; [discriminate |].
  destruct (Ascii.eqb ch sep) eqn:Hch.
  - apply Ascii.eqb_eq in Hch. subst ch. intros [= <- <-]. split; reflexivity.
  - destruct (Cut r sep) as [[b a] found]. intros [= <- <- ->].
    destruct (IH b eq_refl) as [-> Hcount]. split; [reflexivity |].
    cbn [Count]. now rewrite Hch.
Qed.

Lemma Cut_not_found (s before after : string) (sep : ascii) :
  Cut s sep = (before, after, false) ->
  before = s /\ after = EmptyString /\ Count s sep = O.
Proof.
  revert before. induction s as [| ch r IH]; intros before; cbn [Cut Count].
  - intros [= <- <-]. repeat split.
  - destruct (Ascii.eqb ch sep) eqn:Hch; [discriminate |].
    destruct (Cut r sep) as [[b a] found]. intros [= <- <- ->].
    destruct (IH b eq_refl) as (-> & -> & Hcount). repeat split. exact Hcount.
Qed.

Lemma Cut_first (before after : string) (sep : ascii) :
  Count before sep = O ->
  Cut (before +:+ String sep after) sep = (before, after, true).
Proof.
  induction before as [| ch r IH]; cbn [Count].
  - intros _. change (EmptyString +:+ String sep after) with (String sep after).
    cbn [Cut]. now rewrite Ascii.eqb_refl.
  - destruct (Ascii.eqb ch sep) eqn:Hch; [discriminate |]. intros Hcount.
    change (String ch r +:+ String sep after) with (String ch (r +:+ String sep after)).
    cbn [Cut]. rewrite Hch. now rewrite (IH Hcount).
Qed.

Lemma Count_separator (before after : string) (sep : ascii) :
  Count (before +:+ String sep after) sep <> O.
Proof.
  induction before as [| ch r IH].
  - change (EmptyString +:+ String sep after) with (String sep after).
    cbn [Count]. now rewrite Ascii.eqb_refl.
  - change (String ch r +:+ String sep after) with (String ch (r +:+ String sep after)).
    cbn [Count]. now destruct (Ascii.eqb ch sep).
Qed.

End CutFacts.

Section CORSMore.
Import sanity CORSOriginResource.
Variable c : Backend.
Context {errorText : ErrorText}.

(** [Create] sends one call, and its request always says whether
    credentials are allowed: the planned value, or [true] when the plan
    has none.  The plan modifier of the schema gives the same [true] when
    nothing is configured.  The state that a successful [Create] writes
    takes the id and the credentials flag from the entry the service
    returned, and origin and project from the plan. *)
Theorem Create_allow_credentials (plan : tfsdk.Source CORSOriginResourceModel) :
  let data := tfsdk.Get_model plan in
  diag.HasError (diag.Append [] (tfsdk.Get_diags plan)) = false ->
  (exists r : CreateCORSEntryRequest,
      calls (Create c plan) = [CallCreateCORSEntry (types.Value (Project data)) r]
      /\ CreateCORSEntryRequest_Origin r = types.Value (Origin data)
      /\ CreateCORSEntryRequest_AllowCredentials r
         = Some (if types.IsNull (AllowCredentials data) then true
                 else types.Value (AllowCredentials data))
      /\ (forall configured planned : types.Bool,
             AllowCredentials data
             = attribute_plan_modifier.Modify allow_credentials_modifier
                 configured planned ->
             types.IsNull configured = true ->
             CreateCORSEntryRequest_AllowCredentials r = Some true))
  /\ (forall (ds : diag.Diagnostics) (st : CORSOriginResourceModel),
         result (Create c plan) = Returned (resource.mkResponse ds (Some st)) ->
         exists entry : CORSEntry,
           fst (onCreateCORSEntry c [] (types.Value (Project data)) (createRequest data))
           = Some entry
           /\ st = {| Id := types.known (fmt.Sprintf_d (CORSEntry_Id entry));
                      Origin := Origin data;
                      AllowCredentials := types.known (CORSEntry_AllowCredentials entry);
                      Project := Project data |}).
Proof.
  intros data Hdec. split.
  - exists (createRequest data). split; [| split; [| split]].
    + unfold Create. fold data. rewrite Hdec. run_op.
      destruct (onCreateCORSEntry c [] _ _) as [[entry |] [e |]]; reflexivity.
    + reflexivity.
    + cbn. now destruct (types.IsNull (AllowCredentials data)).
    + intros configured planned Hplan Hnull. cbn. rewrite Hplan.
      unfold attribute_plan_modifier.Modify. rewrite Hnull. reflexivity.
  - intros ds st. unfold Create. fold data. rewrite Hdec. run_op.
    destruct (onCreateCORSEntry c [] _ _) as [[entry |] [e |]]; cbn;
      try discriminate.
    intros [= <- <-]. now exists entry.
Qed.

(** The state of a CORS origin is written only together with diagnostics
    that hold no error; [Create] and [Read] that return without a state
    have reported an error; [Update] and [Delete] write no state. *)
Theorem CORS_state_only_without_error (source : tfsdk.Source CORSOriginResourceModel) :
  (forall resp : Response,
      result (Create c source) = Returned resp ->
      diag.HasError (resource.Diagnostics resp)
      = match resource.State resp with Some _ => false | None => true end)
  /\ (forall resp : Response,
         result (Read c source) = Returned resp ->
         diag.HasError (resource.Diagnostics resp)
         = match resource.State resp with Some _ => false | None => true end)
  /\ (forall resp : Response,
         result (Update source) = Returned resp -> resource.State resp = None)
  /\ (forall resp : Response,
         result (Delete c source) = Returned resp -> resource.State resp = None).
Proof.
  split; [| split; [| split]].
  - intros resp. unfold Create.
    destruct (diag.HasError (diag.Append [] (tfsdk.Get_diags source))) eqn:Hdec.
    { intros [= <-]. exact Hdec. }
    run_op.
    destruct (onCreateCORSEntry c [] _ _) as [[entry |] [e |]]; cbn; intros [= <-]; cbn;
      solve [apply diag_HasError_AddError | exact Hdec].
  - intros resp. unfold Read.
    destruct (diag.HasError (diag.Append [] (tfsdk.Get_diags source))) eqn:Hdec.
    { intros [= <-]. exact Hdec. }
    destruct (types.Null (Id (tfsdk.Get_model source))).
    { intros [= <-]. apply diag_HasError_AddError. }
    destruct (types.Null (Project (tfsdk.Get_model source))).
    { intros [= <-]. apply diag_HasError_AddError. }
    run_op.
    destruct (onListCORSEntries c [] _) as [entries [e |]].
    { intros [= <-]. apply diag_HasError_AddError. }
    destruct (fmt.Sscanf_d _) as [err | rawId].
    { intros [= <-]. apply diag_HasError_AddError. }
    destruct (find _ entries); intros [= <-]; cbn;
      solve [apply diag_HasError_AddError | exact Hdec].
  - intros resp [= <-]. reflexivity.
  - intros resp. unfold Delete.
    destruct (diag.HasError _); [intros [= <-]; reflexivity |].
    destruct (types.Null (Id _)); [intros [= <-]; reflexivity |].
    destruct (types.Null (Project _)); [intros [= <-]; reflexivity |].
    destruct (fmt.Sscanf_d _) as [err | rawId]; [intros [= <-]; reflexivity |].
    run_op. destruct (onDeleteCORSEntry c [] _ _); intros [= <-]; reflexivity.
Qed.


(** A read right after a create.  The state that [Create] wrote is read
    back unchanged when the listing holds the created entry, no entry
    before it has its id, and the entry carries the planned origin. *)
Theorem CORS_Read_after_Create
  (c' : Backend) (plan : tfsdk.Source CORSOriginResourceModel)
  (ds : diag.Diagnostics) (st : CORSOriginResourceModel)
  (entry : CORSEntry) (before after : list CORSEntry) :
  let data := tfsdk.Get_model plan in
  result (Create c plan) = Returned (resource.mkResponse ds (Some st)) ->
  fst (onCreateCORSEntry c [] (types.Value (Project data)) (createRequest data))
  = Some entry ->
  fmt.is_int64 (CORSEntry_Id entry) ->
  types.Null (Project data) = false ->
  Origin data = types.known (CORSEntry_Origin entry) ->
  onListCORSEntries c' [] (types.Value (Project data))
  = ((before ++ entry :: after)%list, None) ->
  (forall x : CORSEntry, In x before -> CORSEntry_Id x <> CORSEntry_Id entry) ->
  run (Read c' (tfsdk.clean st))
  = (Returned (resource.mkResponse [] (Some st)),
     [CallListCORSEntries (types.Value (Project data))]).
Proof.
  intros data Hres Hentry Hrange Hproject Horigin Hlist Hbefore.
  assert (Hst : st = {| Id := types.known (fmt.Sprintf_d (CORSEntry_Id entry));
                        Origin := Origin data;
                        AllowCredentials := types.known (CORSEntry_AllowCredentials entry);
                        Project := Project data |}).
  { revert Hres. unfold Create. fold data.
    destruct (diag.HasError _); [discriminate |]. run_op.
    fold (createRequest data).
    destruct (onCreateCORSEntry c [] _ _) as [[entry' |] [e |]]; cbn;
      try discriminate.
    cbn in Hentry. injection Hentry as ->. now intros [= <- <-]. }
  subst st. unfold Read. cbn. rewrite Hproject. run_op. rewrite Hlist.
  rewrite (Sscanf_d_Sprintf_d _ Hrange).
  rewrite (find_first _ before after entry).
  - now rewrite Horigin.
  - intros y Hy. apply Z.eqb_neq. now apply Hbefore.
  - apply Z.eqb_refl.
Qed.

(** Import of a well-formed identifier.  The identifier is cut at its
    first "/": what stands before it is the project, everything after it,
    further "/" included, is the origin.  With both parts non-empty the
    project's entries are listed; the first entry of that origin sets [id]
    (its id in decimal) and [project]; without such an entry, or when the
    listing fails, the import fails with one error and sets nothing. *)
Theorem ImportState_cuts_at_first_slash (project origin : string) :
  strings.Count project "/"%char = O ->
  project <> EmptyString ->
  origin <> EmptyString ->
  let ID := project +:+ "/" +:+ origin in
  calls (ImportState c ID) = [CallListCORSEntries project]
  /\ (forall (entries : list CORSEntry) (e : error),
         onListCORSEntries c [] project = (entries, Some e) ->
         result (ImportState c ID)
         = Returned (resource.mkImportStateResponse
                       [diag.mkDiagnostic diag.SeverityError "Import Error" e] ∅))
  /\ (forall entries : list CORSEntry,
         onListCORSEntries c [] project = (entries, None) ->
         (forall (before after : list CORSEntry) (entry : CORSEntry),
             entries = (before ++ entry :: after)%list ->
             (forall x : CORSEntry, In x before -> CORSEntry_Origin x <> origin) ->
             CORSEntry_Origin entry = origin ->
             result (ImportState c ID)
             = Returned (resource.mkImportStateResponse []
                           (<["project" := project]>
                              (<["id" := fmt.Sprintf_d (CORSEntry_Id entry)]> ∅))))
         /\ ((forall x : CORSEntry, In x entries -> CORSEntry_Origin x <> origin) ->
             result (ImportState c ID)
             = Returned (resource.mkImportStateResponse
                           [diag.mkDiagnostic diag.SeverityError "Import Error"
                              "The requested CORS origin was not found"] ∅))).
Proof.
  intros Hcount Hproject Horigin ID.
  assert (Himport :
    run (ImportState c ID)
    = (Returned
         match onListCORSEntries c [] project with
         | (_, Some e) =>
             resource.mkImportStateResponse
               [diag.mkDiagnostic diag.SeverityError "Import Error" e] ∅
         | (entries, None) =>
             importEntries project origin entries (resource.mkImportStateResponse [] ∅)
         end,
       [CallListCORSEntries project])).
  { unfold ImportState, ID.
    change ("/" +:+ origin) with (String "/"%char origin).
    rewrite (Cut_first project origin "/"%char Hcount).
    apply String.eqb_neq in Hproject. apply String.eqb_neq in Horigin.
    rewrite Hproject, Horigin. cbn [orb]. run_op.
    destruct (onListCORSEntries c [] project) as [entries [e |]]; reflexivity. }
  unfold calls, result. rewrite Himport. cbn [fst snd].
  split; [reflexivity |]. split.
  - intros entries e ->. reflexivity.
  - intros entries ->. split.
    + intros before after entry -> Hbefore Hentry.
      f_equal. induction before as [| y before IH]; cbn [app importEntries].
      * apply String.eqb_eq in Hentry. now rewrite Hentry.
      * assert (Hy : String.eqb (CORSEntry_Origin y) origin = false)
          by (apply String.eqb_neq, Hbefore; now left).
        rewrite Hy. apply IH. intros x Hx. apply Hbefore. now right.
    + intros Habsent. f_equal.
      induction entries as [| y entries IH]; cbn [importEntries]; [reflexivity |].
      assert (Hy : String.eqb (CORSEntry_Origin y) origin = false)
        by (apply String.eqb_neq, Habsent; now left).
      rewrite Hy. apply IH. intros x Hx. apply Habsent. now right.
Qed.

(** Import of a malformed identifier.  [ImportState] issues no call
    exactly when the identifier has no "/", starts with "/", or ends at
    its first "/"; it then fails with the format error and sets nothing. *)
Theorem ImportState_malformed (ID : string) :
  let malformed :=
    strings.Count ID "/"%char = O
    \/ (exists rest : string, ID = "/" +:+ rest)
    \/ (exists project : string,
           strings.Count project "/"%char = O /\ ID = project +:+ "/") in
  (calls (ImportState c ID) = [] <-> malformed)
  /\ (malformed ->
      result (ImportState c ID)
      = Returned (resource.mkImportStateResponse
                    [diag.mkDiagnostic diag.SeverityError "Import Error"
                       "The format for importing a CORS origin is project-id/origin"] ∅)).
Proof.
  intros malformed.
  assert (Hcases :
    (malformed
     /\ run (ImportState c ID)
        = (Returned (resource.mkImportStateResponse
                       [diag.mkDiagnostic diag.SeverityError "Import Error"
                          "The format for importing a CORS origin is project-id/origin"]
                       ∅), []))
    \/ (~ malformed /\ calls (ImportState c ID) <> [])).
  { unfold ImportState, malformed.
    destruct (strings.Cut ID "/"%char) as [[project origin] found] eqn:Hcut.
    destruct found.
    - apply Cut_found in Hcut as [HID Hcount].
      destruct project as [| ch project'].
      + left. split; [| reflexivity]. right. left. now exists origin.
      + destruct origin as [| ch' origin'].
        * left. split; [| reflexivity]. right. right.
          now exists (String ch project').
        * right. split.
          -- intros [Hnone | [(rest & Hrest) | (project & Hp & Hrest)]].
             ++ rewrite HID in Hnone. now apply Count_separator in Hnone.
             ++ rewrite HID in Hrest.
                change (String ch project' +:+ String "/"%char (String ch' origin'))
                  with (String ch (project' +:+ String "/"%char (String ch' origin')))
                  in Hrest.
                change ("/" +:+ rest) with (String "/"%char rest) in Hrest.
                injection Hrest as -> _. cbn in Hcount. discriminate.
             ++ assert (Hcut' : strings.Cut ID "/"%char = (project, EmptyString, true))
                  by (rewrite Hrest; now apply Cut_first).
                rewrite HID in Hcut'.
                rewrite (Cut_first (String ch project') (String ch' origin') "/"%char
                           Hcount) in Hcut'.
                discriminate.
          -- cbn [String.eqb orb]. run_op.
             destruct (onListCORSEntries c [] _) as [entries [e |]]; discriminate.
    - apply Cut_not_found in Hcut as (-> & -> & Hcount).
      left. split; [now left |].
      now rewrite String.eqb_refl, orb_true_r. }
  destruct Hcases as [[Hmal Hrun] | [Hwell Hcalls]].
  - unfold calls, result. rewrite Hrun. cbn. split; [tauto | reflexivity].
  - split; [| contradiction]. split; [intros Hnil; contradiction | contradiction].
Qed.

(** Import, then read.  When the listing holds ids that are pairwise
    distinct and fit an [int64], a successful import names a listed entry
    of the wanted origin, and [Read] of a state with the imported [id] and
    [project] finds that same entry: it refreshes the origin to the one
    that was imported. *)
Theorem Read_after_ImportState
  (project origin : string) (entries : list CORSEntry)
  (attrs : gmap string string) (st : CORSOriginResourceModel) :
  strings.Count project "/"%char = O ->
  project <> EmptyString ->
  origin <> EmptyString ->
  onListCORSEntries c [] project = (entries, None) ->
  List.NoDup (map CORSEntry_Id entries) ->
  (forall x : CORSEntry, In x entries -> fmt.is_int64 (CORSEntry_Id x)) ->
  result (ImportState c (project +:+ "/" +:+ origin))
  = Returned (resource.mkImportStateResponse [] attrs) ->
  attrs !! "id" = Some (types.Value (Id st)) ->
  Id st = types.known (types.Value (Id st)) ->
  Project st = types.known project ->
  exists entry : CORSEntry,
    In entry entries
    /\ CORSEntry_Origin entry = origin
    /\ attrs = <["project" := project]> (<["id" := fmt.Sprintf_d (CORSEntry_Id entry)]> ∅)
    /\ run (Read c (tfsdk.clean st))
       = (Returned (resource.mkResponse []
                      (Some {| Id := Id st;
                               Origin := types.known origin;
                               AllowCredentials :=
                                 types.known (CORSEntry_AllowCredentials entry);
                               Project := Project st |})),
          [CallListCORSEntries project]).
Proof.
  intros Hcount Hproject Horigin Hlist Hnodup Hrange Himport Hid Hknown Hst.
  assert (Hfound : exists entry : CORSEntry,
             In entry entries /\ CORSEntry_Origin entry = origin
             /\ attrs = <["project" := project]>
                          (<["id" := fmt.Sprintf_d (CORSEntry_Id entry)]> ∅)).
  { revert Himport. unfold ImportState.
    change ("/" +:+ origin) with (String "/"%char origin).
    rewrite (Cut_first project origin "/"%char Hcount).
    apply String.eqb_neq in Hproject. apply String.eqb_neq in Horigin.
    rewrite Hproject, Horigin. cbn [orb]. run_op. rewrite Hlist. clear.
    induction entries as [| y entries IH]; cbn [importEntries]; [discriminate |].
    destruct (String.eqb (CORSEntry_Origin y) origin) eqn:Hy.
    - apply String.eqb_eq in Hy. intros [= <-]. exists y.
      split; [now left |]. split; [assumption | reflexivity].
    - intros Himport. destruct (IH Himport) as (entry & Hin & Ho & Hattrs).
      exists entry. split; [now right | now split]. }
  destruct Hfound as (entry & Hin & Ho & ->). exists entry.
  split; [assumption |]. split; [assumption |]. split; [reflexivity |].
  assert (Hidv : types.Value (Id st) = fmt.Sprintf_d (CORSEntry_Id entry)).
  { rewrite lookup_insert_ne in Hid by discriminate.
    rewrite lookup_insert_eq in Hid. now injection Hid. }
  unfold Read. cbn. rewrite Hknown, Hst. cbn. run_op. rewrite Hlist.
  rewrite Hidv, (Sscanf_d_Sprintf_d _ (Hrange entry Hin)).
  rewrite (find_by_unique_id entries entry Hnodup Hin). now rewrite Ho, <- Hidv.
Qed.

End CORSMore.

Lemma Create_allow_credentials_witness :
  exists r : sanity.CreateCORSEntryRequest,
    calls (CORSOriginResource.Create Samples.healthy (tfsdk.clean Samples.corsPlanNoFlag))
    = [sanity.CallCreateCORSEntry "p1" r]
    /\ sanity.CreateCORSEntryRequest_AllowCredentials r = Some true.
Proof.
  destruct (Create_allow_credentials Samples.healthy
              (tfsdk.clean Samples.corsPlanNoFlag) eq_refl)
    as ((r & Hcalls & _ & Hflag & _) & _).
  exists r. split; [exact Hcalls | exact Hflag].
Defined.

Lemma CORS_Read_after_Create_witness :
  run (CORSOriginResource.Read (errorText := Samples.sampleErrorText)
         Samples.listsCreated (tfsdk.clean Samples.corsCreated))
  = (Returned (resource.mkResponse [] (Some Samples.corsCreated)),
     [sanity.CallListCORSEntries "p1"]).
Proof.
  apply (CORS_Read_after_Create Samples.healthy (errorText := Samples.sampleErrorText)
           Samples.listsCreated (tfsdk.clean Samples.corsPlan) [] Samples.corsCreated
           (sanity.mkCORSEntry 17 "https://example.com" true)
           [Samples.entryA; Samples.entryB] []);
    try reflexivity.
  - vm_compute. split; discriminate.
  - intros x [<- | [<- | []]]; discriminate.
Defined.

Lemma ImportState_cuts_at_first_slash_witness :
  calls (CORSOriginResource.ImportState Samples.healthy "proj123/https://b")
  = [sanity.CallListCORSEntries "proj123"]
  /\ result (CORSOriginResource.ImportState Samples.healthy "proj123/https://b")
     = Returned (resource.mkImportStateResponse []
                   (<["project" := "proj123"]> (<["id" := "2"]> ∅))).
Proof.
  destruct (ImportState_cuts_at_first_slash Samples.healthy "proj123" "https://b"
              eq_refl ltac:(discriminate) ltac:(discriminate))
    as (Hcalls & _ & Hlisted).
  split; [exact Hcalls |].
  destruct (Hlisted [Samples.entryA; Samples.entryB] eq_refl) as (Hfound & _).
  apply (Hfound [Samples.entryA] [] Samples.entryB eq_refl); [| reflexivity].
  intros x [<- | []]. discriminate.
Defined.

Lemma Read_after_ImportState_witness :
  exists entry : sanity.CORSEntry,
    In entry [Samples.entryA; Samples.entryB]
    /\ run (CORSOriginResource.Read (errorText := Samples.sampleErrorText)
              Samples.healthy (tfsdk.clean (Samples.corsState "2")))
       = (Returned (resource.mkResponse []
                      (Some {| CORSOriginResource.Id := types.known "2";
                               CORSOriginResource.Origin := types.known "https://b";
                               CORSOriginResource.AllowCredentials :=
                                 types.known (sanity.CORSEntry_AllowCredentials entry);
                               CORSOriginResource.Project := types.known "p1" |})),
          [sanity.CallListCORSEntries "p1"]).
Proof.
  assert (Hnodup : List.NoDup (map sanity.CORSEntry_Id [Samples.entryA; Samples.entryB])).
  { repeat constructor; cbn; intuition discriminate. }
  assert (Hrange : forall x : sanity.CORSEntry,
             In x [Samples.entryA; Samples.entryB] -> fmt.is_int64 (sanity.CORSEntry_Id x)).
  { intros x [<- | [<- | []]]; vm_compute; split; discriminate. }
  destruct (Read_after_ImportState Samples.healthy (errorText := Samples.sampleErrorText)
              "p1" "https://b" [Samples.entryA; Samples.entryB]
              (<["project" := "p1"]> (<["id" := "2"]> ∅)) (Samples.corsState "2")
              eq_refl ltac:(discriminate) ltac:(discriminate) eq_refl Hnodup Hrange
              eq_refl eq_refl eq_refl eq_refl)
    as (entry & Hin & _ & _ & Hread).
  exists entry. split; [exact Hin | exact Hread].
Defined.

(** ** The dataset resource: reading, deleting, importing *)

Section DatasetMore.
Import sanity DatasetResource.
Variable c : Backend.

(** [Read] changes the acl mode only.  A state that it writes keeps the
    stored project and name, comes with no error, and takes its acl mode
    from the first listed dataset whose name is the stored name. *)
Theorem Dataset_Read_refreshes_acl_only
  (state : tfsdk.Source DatasetResourceModel)
  (ds : diag.Diagnostics) (st : DatasetResourceModel) :
  let data := tfsdk.Get_model state in
  result (Read c state) = Returned (resource.mkResponse ds (Some st)) ->
  Project st = Project data
  /\ Name st = Name data
  /\ diag.HasError ds = false
  /\ exists (before after : list Dataset) (dataset : Dataset),
      fst (onListDatasets c [] (types.Value (Project data)))
      = (before ++ dataset :: after)%list
      /\ Dataset_Name dataset = types.Value (Name data)
      /\ (forall x : Dataset, In x before -> Dataset_Name x <> types.Value (Name data))
      /\ AclMode st = types.known (Dataset_AclMode dataset).
Proof.
  intros data. unfold Read. fold data.
  destruct (diag.HasError (diag.Append [] (tfsdk.Get_diags state))) eqn:Hdec;
    [discriminate |].
  run_op. destruct (onListDatasets c [] _) as [datasets [e |]]; [discriminate |].
  destruct (find _ datasets) as [dataset |] eqn:Hfind; [| discriminate].
  intros [= <- <-]. cbn. repeat split; [assumption |].
  apply find_split in Hfind as (before & after & -> & Hname & Hbefore).
  exists before, after, dataset. split; [reflexivity |]. split; [| split].
  - now apply String.eqb_eq.
  - intros x Hx. apply String.eqb_neq. now apply Hbefore.
  - reflexivity.
Qed.

(** A read right after a create.  The state that [Create] wrote, which is
    the plan, is read back unchanged when the listing holds a dataset of
    the planned name and the first such dataset has the planned acl mode. *)
Theorem Dataset_Read_after_Create
  (c' : Backend) (plan : tfsdk.Source DatasetResourceModel)
  (ds : diag.Diagnostics) (st : DatasetResourceModel)
  (before after : list Dataset) (dataset : Dataset) :
  result (Create c plan) = Returned (resource.mkResponse ds (Some st)) ->
  onListDatasets c' [] (types.Value (Project st))
  = ((before ++ dataset :: after)%list, None) ->
  Dataset_Name dataset = types.Value (Name st) ->
  (forall x : Dataset, In x before -> Dataset_Name x <> types.Value (Name st)) ->
  AclMode st = types.known (Dataset_AclMode dataset) ->
  st = tfsdk.Get_model plan
  /\ run (Read c' (tfsdk.clean st))
     = (Returned (resource.mkResponse [] (Some st)),
        [CallListDatasets (types.Value (Project st))]).
Proof.
  intros Hres Hlist Hname Hbefore Hacl. split.
  - revert Hres. unfold Create. destruct (diag.HasError _); [discriminate |].
    run_op. destruct (onCreateDataset c [] _ _) as [reply [e |]]; [discriminate |].
    now intros [= _ ->].
  - unfold Read. cbn. run_op. rewrite Hlist.
    rewrite (find_first _ before after dataset).
    + rewrite <- Hacl. now destruct st.
    + intros y Hy. apply String.eqb_neq. now apply Hbefore.
    + now apply String.eqb_eq.
Qed.

(** The state of a dataset is written only together with diagnostics
    that hold no error; [Create] and [Read] that return without a state
    have reported an error; [Update] and [Delete] write no state; and the
    one call of [Delete] deletes the dataset of the stored name in the
    stored project, both attributes being not null. *)
Theorem Dataset_state_only_without_error
  (source : tfsdk.Source DatasetResourceModel) (call : Call) :
  let data := tfsdk.Get_model source in
  (forall resp : Response,
      result (Create c source) = Returned resp ->
      diag.HasError (resource.Diagnostics resp)
      = match resource.State resp with Some _ => false | None => true end)
  /\ (forall resp : Response,
         result (Read c source) = Returned resp ->
         diag.HasError (resource.Diagnostics resp)
         = match resource.State resp with Some _ => false | None => true end)
  /\ (forall resp : Response,
         result (Update source) = Returned resp -> resource.State resp = None)
  /\ (forall resp : Response,
         result (Delete c source) = Returned resp -> resource.State resp = None)
  /\ (In call (calls (Delete c source)) ->
      call = CallDeleteDataset (types.Value (Project data)) (types.Value (Name data))
      /\ types.Null (Name data) = false
      /\ types.Null (Project data) = false).
Proof.
  intros data. split; [| split; [| split; [| split]]].
  - intros resp. unfold Create.
    destruct (diag.HasError (diag.Append [] (tfsdk.Get_diags source))) eqn:Hdec.
    { intros [= <-]. exact Hdec. }
    run_op.
    destruct (onCreateDataset c [] _ _) as [reply [e |]]; intros [= <-]; cbn;
      solve [apply diag_HasError_AddError | exact Hdec].
  - intros resp. unfold Read.
    destruct (diag.HasError (diag.Append [] (tfsdk.Get_diags source))) eqn:Hdec.
    { intros [= <-]. exact Hdec. }
    run_op.
    destruct (onListDatasets c [] _) as [datasets [e |]].
    { intros [= <-]. apply diag_HasError_AddError. }
    destruct (find _ datasets); intros [= <-]; cbn;
      solve [apply diag_HasError_AddError | exact Hdec].
  - intros resp [= <-]. reflexivity.
  - intros resp. unfold Delete.
    destruct (diag.HasError _); [intros [= <-]; reflexivity |].
    destruct (types.Null (Name _)); [intros [= <-]; reflexivity |].
    destruct (types.Null (Project _)); [intros [= <-]; reflexivity |].
    run_op. destruct (onDeleteDataset c [] _ _); intros [= <-]; reflexivity.
  - unfold Delete. fold data.
    destruct (diag.HasError _); [intros [] |].
    destruct (types.Null (Name data)); [intros [] |].
    destruct (types.Null (Project data)); [intros [] |].
    run_op. destruct (onDeleteDataset c [] _ _); cbn; intros [<- | []]; auto.
Qed.

(** Import, then read.  An identifier made of a project and a name
    without "/" in either, joined by "/", imports as that project and that
    name; [Read] of a state with these two lists the datasets of that
    project and takes the acl mode from the first one of that name. *)
Theorem Dataset_Read_after_ImportState
  (project name : string) (st : DatasetResourceModel)
  (before after : list Dataset) (dataset : Dataset) :
  strings.Count project "/"%char = O ->
  strings.Count name "/"%char = O ->
  Project st = types.known project ->
  Name st = types.known name ->
  onListDatasets c [] project = ((before ++ dataset :: after)%list, None) ->
  Dataset_Name dataset = name ->
  (forall x : Dataset, In x before -> Dataset_Name x <> name) ->
  ImportState (project +:+ "/" +:+ name)
  = resource.mkImportStateResponse []
      (<["name" := name]> (<["project" := project]> ∅))
  /\ run (Read c (tfsdk.clean st))
     = (Returned (resource.mkResponse []
                    (Some {| Project := Project st;
                             Name := Name st;
                             AclMode := types.known (Dataset_AclMode dataset) |})),
        [CallListDatasets project]).
Proof.
  intros Hproject Hname Hp Hn Hlist Hdataset Hbefore. split.
  - unfold ImportState.
    rewrite (proj2 (Split_two_pieces (project +:+ "/" +:+ name) project name "/"%char)
               (conj eq_refl (conj Hproject Hname))).
    reflexivity.
  - unfold Read. cbn. rewrite Hp, Hn. cbn. run_op. rewrite Hlist.
    rewrite (find_first _ before after dataset).
    + reflexivity.
    + intros y Hy. apply String.eqb_neq. now apply Hbefore.
    + now apply String.eqb_eq.
Qed.

End DatasetMore.

Lemma Dataset_Read_refreshes_acl_only_witness :
  exists dataset : sanity.Dataset,
    sanity.Dataset_Name dataset = "production"
    /\ types.known "public" = types.known (sanity.Dataset_AclMode dataset).
Proof.
  destruct (Dataset_Read_refreshes_acl_only Samples.healthy
              (tfsdk.clean Samples.datasetStale) []
              {| DatasetResource.Project := types.known "p1";
                 DatasetResource.Name := types.known "production";
                 DatasetResource.AclMode := types.known "public" |} eq_refl)
    as (_ & _ & _ & before & after & dataset & _ & Hname & _ & Hacl).
  exists dataset. split; [exact Hname | exact Hacl].
Defined.

Lemma Dataset_Read_after_Create_witness :
  run (DatasetResource.Read Samples.healthy (tfsdk.clean Samples.datasetPlan))
  = (Returned (resource.mkResponse [] (Some Samples.datasetPlan)),
     [sanity.CallListDatasets "p1"]).
Proof.
  apply (Dataset_Read_after_Create Samples.healthy Samples.healthy
           (tfsdk.clean Samples.datasetPlan) [] Samples.datasetPlan
           [] [] (sanity.mkDataset "production" "public"));
    try reflexivity.
  intros x [].
Defined.

Lemma Dataset_Read_after_ImportState_witness :
  DatasetResource.ImportState "p1/production"
  = resource.mkImportStateResponse []
      (<["name" := "production"]> (<["project" := "p1"]> ∅))
  /\ run (DatasetResource.Read Samples.healthy (tfsdk.clean Samples.datasetStale))
     = (Returned (resource.mkResponse [] (Some Samples.datasetPlan)),
        [sanity.CallListDatasets "p1"]).
Proof.
  apply (Dataset_Read_after_ImportState Samples.healthy "p1" "production"
           Samples.datasetStale [] [] (sanity.mkDataset "production" "public"));
    try reflexivity.
  intros x [].
Defined.

(** ** The project resource: when [Update] calls the service *)

Section ProjectUpdateMore.
Import sanity ProjectResource.
Variable c : Backend.

(** With a decoded plan and an id, [Update] leaves the service alone
    exactly when the plan has nothing to update: name, external studio
    host, color and the two flags are null, and the studio host is null
    or the prior studio host is already set.  It then returns without a
    state and without a new diagnostic. *)
Theorem Update_skips_iff_nothing_to_update
  (plan : tfsdk.Source ProjectResourceModel) (studioHost : string) :
  let data := tfsdk.Get_model plan in
  let diags := diag.Append [] (tfsdk.Get_diags plan) in
  let nothing :=
    types.Null (Name data) = true
    /\ (types.Null (StudioHost data) = true \/ studioHost <> EmptyString)
    /\ types.Null (ExternalStudioHost data) = true
    /\ types.Null (Color data) = true
    /\ types.Null (IsDisabledByUser data) = true
    /\ types.Null (ActivityFeedEnabled data) = true in
  diag.HasError diags = false ->
  types.Null (Id data) = false ->
  (calls (Update c plan studioHost) = [] <-> nothing)
  /\ (nothing ->
      result (Update c plan studioHost) = Returned (resource.mkResponse diags None)).
Proof.
  intros data diags nothing Hdec Hid.
  assert (Hreq : requiresUpdate data studioHost = false <-> nothing).
  { unfold requiresUpdate, nothing.
    destruct (String.eqb studioHost EmptyString) eqn:Hhost.
    - apply String.eqb_eq in Hhost.
      destruct (types.Null (Name data)), (types.Null (StudioHost data)),
        (types.Null (ExternalStudioHost data)), (types.Null (Color data)),
        (types.Null (IsDisabledByUser data)), (types.Null (ActivityFeedEnabled data));
        cbn; intuition congruence.
    - apply String.eqb_neq in Hhost.
      destruct (types.Null (Name data)), (types.Null (StudioHost data)),
        (types.Null (ExternalStudioHost data)), (types.Null (Color data)),
        (types.Null (IsDisabledByUser data)), (types.Null (ActivityFeedEnabled data));
        cbn; intuition congruence. }
  unfold Update. fold data. fold diags. rewrite Hdec, Hid.
  destruct (requiresUpdate data studioHost) eqn:Hrequires; cbn [negb].
  - split.
    + split.
      * run_op. destruct (onUpdate c [] _ _) as [[p |] [e |]]; discriminate.
      * intros Hnothing. apply Hreq in Hnothing. discriminate.
    + intros Hnothing. apply Hreq in Hnothing. discriminate.
  - split; [| reflexivity]. split; [intros _; now apply Hreq | reflexivity].
Qed.

End ProjectUpdateMore.

Lemma Update_skips_iff_nothing_to_update_witness :
  run (ProjectResource.Update Samples.healthy
         (tfsdk.clean Samples.projectIdOnly) "my-cool-blog")
  = (Returned (resource.mkResponse [] None), []).
Proof.
  destruct (Update_skips_iff_nothing_to_update Samples.healthy
              (tfsdk.clean Samples.projectIdOnly) "my-cool-blog" eq_refl eq_refl)
    as (Hcalls & Hresult).
  assert (Hnothing :
    types.Null (ProjectResource.Name Samples.projectIdOnly) = true
    /\ (types.Null (ProjectResource.StudioHost Samples.projectIdOnly) = true
        \/ "my-cool-blog" <> EmptyString)
    /\ types.Null (ProjectResource.ExternalStudioHost Samples.projectIdOnly) = true
    /\ types.Null (ProjectResource.Color Samples.projectIdOnly) = true
    /\ types.Null (ProjectResource.IsDisabledByUser Samples.projectIdOnly) = true
    /\ types.Null (ProjectResource.ActivityFeedEnabled Samples.projectIdOnly) = true).
  { repeat split; try reflexivity. right. discriminate. }
  unfold run. unfold calls, result, run in Hcalls, Hresult.
  destruct (ProjectResource.Update Samples.healthy (tfsdk.clean Samples.projectIdOnly)
              "my-cool-blog" []) as [out log].
  cbn [fst snd] in Hcalls, Hresult.
  rewrite (Hresult Hnothing), (proj2 Hcalls Hnothing). reflexivity.
Defined.
